(** * Lane-relative geometry of scenario_runner: the ControlLoss metric and
      the spawn placement of the object-crossing scenarios

    Shallow embedding of
    - [srunner/metrics/control_loss_metric.py] ([ControlLossMetric._create_metrics]),
    - [srunner/scenarios/object_crash_vehicle.py] (the two [__init__] methods).

    Conventions of the embedding.
    - Python floats are read as real numbers ([R]); rounding is not modelled.
      The float operations that can raise are fallible: [/] raises
      [ZeroDivisionError] on a zero divisor, [math.sqrt] raises [ValueError]
      on a negative argument.
    - Python ints (frame numbers, list indexes) are [Z].
    - A Python call that may raise returns a [result]; the statements of a
      method are chained with the bind of that monad, in source order.
    - Objects of the simulator API (vectors, transforms, waypoints) are
      records holding what the code reads from them. *)

From Stdlib Require Import Reals Lra Lia ZArith List.
From stdpp Require Import gmap strings.

#[local] Open Scope R_scope.

(** ** Python: exceptions, sequencing, [range], list subscription, names *)

Module Py.

Inductive exn : Type :=
  | ZeroDivisionError
  | ValueError
  | IndexError
  | TypeError
  | NameError (name : string)
  | Failure (origin : string).

Inductive result (A : Type) : Type :=
  | Ok (a : A)
  | Raise (e : exn).
Arguments Ok {A} a.
Arguments Raise {A} e.

#[export] Instance result_ret : MRet result := fun _ a => Ok a.
#[export] Instance result_bind : MBind result := fun _ _ f m =>
  match m with
  | Ok a => f a
  | Raise e => Raise e
  end.

Definition returns {A} (m : result A) : Prop := exists a, m = Ok a.
Definition raises {A} (m : result A) : Prop := exists e, m = Raise e.

(** [a / b] on floats. *)
Definition truediv (a b : R) : result R :=
  if Req_dec_T b 0 then Raise ZeroDivisionError else Ok (a / b).

(** [math.sqrt(x)]. *)
Definition math_sqrt (x : R) : result R :=
  if Rlt_dec x 0 then Raise ValueError else Ok (sqrt x).

(** [math.radians(d)]. *)
Definition math_radians (d : R) : R := d * PI / 180.

(** [range(start, stop)] on ints: start, start+1, ... while below stop. *)
Definition range (start stop : Z) : list Z :=
  map (fun k => (start + Z.of_nat k)%Z) (seq 0 (Z.to_nat (stop - start))).

(** [range(a, b)] where the bounds may be [None]: a [TypeError] then. *)
Definition range_obj (start stop : option Z) : result (list Z) :=
  match start, stop with
  | Some a, Some b => Ok (range a b)
  | _, _ => Raise TypeError
  end.

(** [l[i]] on a list: a negative index counts from the end, an index outside
    [-len, len) raises [IndexError]. *)
Definition getitem {A} (l : list A) (i : Z) : result A :=
  let len := Z.of_nat (length l) in
  let j := if (i <? 0)%Z then (i + len)%Z else i in
  if ((j <? 0)%Z || (len <=? j)%Z)%bool then Raise IndexError
  else match nth_error l (Z.to_nat j) with
       | Some a => Ok a
       | None => Raise IndexError
       end.

(** [for i in xs: acc = body(acc, i)], stopping at the first exception. *)
Fixpoint for_each {A S} (body : S -> A -> result S) (acc : S) (xs : list A)
  : result S :=
  match xs with
  | [] => Ok acc
  | i :: rest => acc' ← body acc i; for_each body acc' rest
  end.

(** Evaluation of a name that the function body never assigns: it is looked
    up in the module's global namespace (builtins included). *)
Definition load_global {V} (globals : gmap string V) (name : string)
  : result V :=
  match globals !! name with
  | Some v => Ok v
  | None => Raise (NameError name)
  end.

(** What [json.dump] is given here: a dict from keys to lists of numbers,
    in insertion order ([sort_keys=False]). *)
Inductive json_number : Type :=
  | JInt (n : Z)
  | JFloat (x : R).

Definition json_dict : Type := list (string * list json_number).

End Py.

Import Py.

(** ** Simulator objects *)

Module Carla.

Record Vector3D : Type := Vec { x : R; y : R; z : R }.

(** [carla.Location] is a [Vector3D]. *)
Abbreviation Location := Vector3D.

Definition sub (a b : Vector3D) : Vector3D :=
  Vec (x a - x b) (y a - y b) (z a - z b).

Definition add (a b : Vector3D) : Vector3D :=
  Vec (x a + x b) (y a + y b) (z a + z b).

Definition rmul (k : R) (a : Vector3D) : Vector3D :=
  Vec (k * x a) (k * y a) (k * z a).

Record Rotation : Type := Rot { pitch : R; yaw : R; roll : R }.

Record Transform : Type := Trans { location : Location; rotation : Rotation }.

(** A waypoint as the code reads it: [transform], [lane_width], and the
    results of [transform.get_right_vector()] and
    [transform.get_forward_vector()]. *)
Record Waypoint : Type := Wp {
  transform : Transform;
  lane_width : R;
  get_right_vector : Vector3D;
  get_forward_vector : Vector3D
}.

End Carla.

Import Carla.

(** ** [srunner/metrics/control_loss_metric.py] *)

Module ControlLossMetric.

(** The recorder queries used by the metric ([MetricsLog], not part of these
    sources): the values they return for a given recording. The frame bounds
    are Python objects, an int or [None]. *)
Record MetricsLog : Type := Log {
  actor_id : Type;
  get_ego_vehicle_id : actor_id;
  get_actor_alive_frames : actor_id -> option Z * option Z;
  get_all_actor_states :
    actor_id -> string -> option Z -> option Z -> list Transform
}.

(** The three lists filled by the loop. *)
Record lists : Type := Lists {
  distances_list : list R;
  lane_width_list : list R;
  frames_list : list Z
}.

Definition empty_lists : lists := Lists [] [] [].

Definition dot3 (a b : Vector3D) : R :=
  x a * x b + y a * y b + z a * z b.

(** Lines 62-83: the signed distance of [hero_location] to the lane centre
    at [hero_waypoint]. *)
Definition project_dist (hero_waypoint : Waypoint) (hero_location : Location)
  : result R :=
  let perp_wp_vec := get_right_vector hero_waypoint in
  let hero_wp_vec := sub hero_location (location (transform hero_waypoint)) in
  let dot := x perp_wp_vec * x hero_wp_vec + y perp_wp_vec * y hero_wp_vec
             + z perp_wp_vec * z hero_wp_vec in
  perp_wp ← math_sqrt (x perp_wp_vec * x perp_wp_vec
                        + y perp_wp_vec * y perp_wp_vec
                        + z perp_wp_vec * z perp_wp_vec);
  scale ← truediv dot (perp_wp * perp_wp);
  let project_vec := rmul scale perp_wp_vec in
  project_dist ← math_sqrt (x project_vec * x project_vec
                             + y project_vec * y project_vec
                             + z project_vec * z project_vec);
  let forw_wp_vec := get_forward_vector hero_waypoint in
  let cross_z := x forw_wp_vec * y hero_wp_vec
                 - y forw_wp_vec * x hero_wp_vec in
  Ok (if Rlt_dec cross_z 0 then - project_dist else project_dist).

Definition output_path : string := "srunner/metrics/data/ControlLoss_metric.json".

Section Metric.

(** [self._map.get_waypoint]: the town map's nearest lane waypoint. *)
Variable get_waypoint : Location -> Waypoint.

(** One iteration of the loop of line 54, for frame [i]. *)
Definition loop_body (hero_transform_list : list Transform)
    (acc : lists) (i : Z) : result lists :=
  hero_transform ← getitem hero_transform_list (i - 1);
  let hero_location := location hero_transform in
  let hero_waypoint := get_waypoint hero_location in
  let lane_width := lane_width hero_waypoint / 2 in
  project_dist ← project_dist hero_waypoint hero_location;
  Ok (Lists (distances_list acc ++ [project_dist])
            (lane_width_list acc ++ [lane_width])
            (frames_list acc ++ [i])).

(** Lines 45-88 once [start], [end] are ints. *)
Definition collect (hero_transform_list : list Transform) (start end_ : Z)
  : result lists :=
  for_each (loop_body hero_transform_list) empty_lists (range start end_).

Definition results_of (ls : lists) : json_dict :=
  [("frames"%string, map JInt (frames_list ls));
   ("distance"%string, map JFloat (distances_list ls))].

(** [_create_metrics]: the files before the call go in, the outcome of the
    call and the files after it come out. A file is a name bound to the
    document dumped in it; [open(path, 'w')] rebinds the name (the operating
    system's refusals to open or write are not modelled). *)
Definition _create_metrics (metrics_log : MetricsLog)
    (files : gmap string json_dict)
  : result unit * gmap string json_dict :=
  let hero_id := get_ego_vehicle_id metrics_log in
  let '(start, end_) := get_actor_alive_frames metrics_log hero_id in
  let hero_transform_list :=
    get_all_actor_states metrics_log hero_id "transform" start end_ in
  match
    frames ← range_obj start end_;
    for_each (loop_body hero_transform_list) empty_lists frames
  with
  | Raise e => (Raise e, files)
  | Ok ls => (Ok tt, <[output_path := results_of ls]> files)
  end.

End Metric.

End ControlLossMetric.

(** ** [srunner/scenarios/object_crash_vehicle.py] *)

Module ObjectCrashVehicle.

(** The dict [offset] of lines 62 and 155; the key ["z"] is the field [dz]. *)
Record offset_dict : Type := Offset {
  orientation : R;
  position : R;
  dz : R;
  k : R
}.

Definition stationary_offset : offset_dict := Offset 270 90 (2 / 10) (2 / 10).
Definition dynamic_offset : offset_dict := Offset 270 90 (2 / 10) (11 / 10).

(** Lines 63-70 and 156-163: the transform of the spawned cyclist.
    [carla.Location(a, b)] has elevation 0, [carla.Rotation(yaw=c)] has
    pitch and roll 0. *)
Definition spawn_transform (offset : offset_dict) (lane_width : R)
    (location : Location) (waypoint : Waypoint) : Transform :=
  let position_yaw := yaw (rotation (transform waypoint)) + position offset in
  let orientation_yaw :=
    yaw (rotation (transform waypoint)) + orientation offset in
  let offset_location :=
    Vec (k offset * lane_width * cos (math_radians position_yaw))
        (k offset * lane_width * sin (math_radians position_yaw))
        0 in
  let location := add location offset_location in
  let location := Vec (x location) (y location) (z location + dz offset) in
  Trans location (Rot 0 orientation_yaw 0).

(** Python objects passed to the base-class initializer. *)
Inductive obj : Type :=
  | Str (s : string)
  | Bool (b : bool)
  | Handle (what : string)
  | ActorParameters (l : list (string * Transform)).

(** What the constructors read from [ego_vehicle]. *)
Record Vehicle : Type := Veh {
  get_location : Location;
  get_waypoint : Location -> Waypoint   (* get_world().get_map().get_waypoint *)
}.

(** Code outside these sources that the constructors call.
    [globals] is the namespace of the module (its own top-level names, those
    of its star imports, builtins); [BasicScenario_init] takes the positional
    and the keyword arguments of the call. *)
Record Env : Type := MkEnv {
  globals : gmap string obj;
  BasicScenario_init : list obj -> list (string * obj) -> result unit;
  get_location_in_distance : Vehicle -> R -> result (Location * R)
}.

Record Scenario : Type := MkScenario {
  scenario_name : string;
  actor_parameters : list (string * Transform)
}.

Section Init.

Variable env : Env.

(** The body shared by both constructors, lines 47-78 and 135-171; they
    differ in the name given to the base class and in [offset]. *)
Definition init (name : string) (offset : offset_dict)
    (world : obj) (ego_vehicle : Vehicle) (config : obj)
    (randomize debug_mode criteria_enable : bool) : result Scenario :=
  _ ← BasicScenario_init env
        [Str name; Handle "ego_vehicle"; config; world; Bool debug_mode]
        [("criteria_enable"%string, Bool criteria_enable)];
  let _start_distance := 40 in
  let lane_width :=
    lane_width (get_waypoint ego_vehicle (get_location ego_vehicle)) in
  '(location, _) ← get_location_in_distance env ego_vehicle _start_distance;
  let waypoint := get_waypoint ego_vehicle location in
  let model := "vehicle.diamondback.century"%string in
  let transform := spawn_transform offset lane_width location waypoint in
  let actor_parameters := [(model, transform)] in
  town ← load_global (globals env) "town";
  _ ← BasicScenario_init env
        [Str name; Handle "ego_vehicle"; ActorParameters actor_parameters;
         town; world; Bool debug_mode]
        [];
  Ok (MkScenario name actor_parameters).

Definition StationaryObjectCrossing_init :=
  init "Stationaryobjectcrossing" stationary_offset.

Definition DynamicObjectCrossing_init :=
  init "Dynamicobjectcrossing" dynamic_offset.

End Init.

End ObjectCrashVehicle.

(** ** The geometry engine as the specification words it *)

Module Spec.

Import ControlLossMetric.

Definition norm2 (v : Vector3D) : R := dot3 v v.

Definition norm (v : Vector3D) : R := sqrt (norm2 v).

(** z-component of [forward × v], the cross product restricted to the
    horizontal plane. *)
Definition cross_z (forward v : Vector3D) : R :=
  x forward * y v - y forward * x v.

(** Magnitude of the projection of [v] on [right]:
    [dot = right·v; scale = dot / |right|²; projectedVector = scale·right;
     magnitude = |projectedVector|]. *)
Definition projection_magnitude (right v : Vector3D) : R :=
  let dot := dot3 right v in
  let scale := dot / norm2 right in
  let projectedVector := rmul scale right in
  norm projectedVector.

(** [signedLateralOffset(waypoint, worldLocation)]: negative cross, negated
    magnitude. *)
Definition signedLateralOffset (waypoint : Waypoint) (worldLocation : Location)
  : R :=
  let v := sub worldLocation (location (transform waypoint)) in
  let magnitude := projection_magnitude (get_right_vector waypoint) v in
  if Rlt_dec (cross_z (get_forward_vector waypoint) v) 0
  then - magnitude else magnitude.

(** Component of [v] along [right]: the scalar projection. *)
Definition component_along (right v : Vector3D) : R :=
  dot3 right v / norm right.

(** The direction of heading [yaw_deg], turned by [turn_deg], both in
    degrees, in the horizontal plane. *)
Definition rotated_heading (yaw_deg turn_deg : R) : Vector3D :=
  let h := Vec (cos (math_radians yaw_deg)) (sin (math_radians yaw_deg)) 0 in
  let c := cos (math_radians turn_deg) in
  let s := sin (math_radians turn_deg) in
  Vec (c * x h - s * y h) (s * x h + c * y h) 0.

(** [laneOffsetPose] once the lane has been walked: the reached location is
    displaced by [lateralFraction × laneWidth] along the heading turned by
    [positionOffsetDeg], raised by [heightOffset], and oriented along the
    heading plus [orientationOffsetDeg]. *)
Definition laneOffsetPose (reached : Location) (heading_deg laneWidth : R)
    (lateralFraction orientationOffsetDeg positionOffsetDeg heightOffset : R)
  : Transform :=
  let d := rmul (lateralFraction * laneWidth)
             (rotated_heading heading_deg positionOffsetDeg) in
  Trans (add (add reached d) (Vec 0 0 heightOffset))
        (Rot 0 (heading_deg + orientationOffsetDeg) 0).

(** A waypoint whose axes follow the simulator's convention on a lane without
    bank: the right vector is horizontal, of unit length, a quarter turn from
    the heading [yaw]; the forward vector points along the heading, tilted by
    the lane's slope ([c] is the cosine of the pitch). *)
Definition level_axes (waypoint : Waypoint) : Prop :=
  let psi := math_radians (yaw (rotation (transform waypoint))) in
  get_right_vector waypoint = Vec (- sin psi) (cos psi) 0 /\
  exists c, 0 < c /\
    x (get_forward_vector waypoint) = c * cos psi /\
    y (get_forward_vector waypoint) = c * sin psi.

(** The right vector is a positive multiple of the horizontal normal of the
    forward vector. *)
Definition right_of_forward (waypoint : Waypoint) : Prop :=
  exists s, 0 < s /\
    get_right_vector waypoint =
      Vec (- (s * y (get_forward_vector waypoint)))
          (s * x (get_forward_vector waypoint)) 0.

End Spec.

(** ** The metric extractor as the specification words it *)

Module Extractor.

Import ControlLossMetric.

(** [MetricSample]: {frame index, signed lateral offset, lane half-width}. *)
Record MetricSample : Type := Sample {
  frame : Z;
  offset : R;
  laneHalfWidth : R
}.

(** The sample of frame [N]: the pose recorded at array index [N - 1],
    re-projected on its nearest lane waypoint. *)
Definition sample (nearestWaypoint : Location -> Waypoint)
    (recorded : list Transform) (N : Z) : option MetricSample :=
  pose ← nth_error recorded (Z.to_nat (N - 1));
  let waypoint := nearestWaypoint (location pose) in
  Some (Sample N (Spec.signedLateralOffset waypoint (location pose))
               (lane_width waypoint / 2)).

(** The samples held by the three lists of the code, position by
    position. *)
Fixpoint samples_of (frames : list Z) (distances widths : list R)
  : list MetricSample :=
  match frames, distances, widths with
  | f :: fs, d :: ds, w :: ws => Sample f d w :: samples_of fs ds ws
  | _, _, _ => []
  end.

(** What one iteration of the loop appends, as a value: the distance and the
    halved lane width of frame [i]. *)
Definition iteration (get_waypoint : Location -> Waypoint)
    (hero_transform_list : list Transform) (i : Z) : result (R * R) :=
  hero_transform ← getitem hero_transform_list (i - 1);
  let hero_location := location hero_transform in
  let hero_waypoint := get_waypoint hero_location in
  d ← project_dist hero_waypoint hero_location;
  Ok (d, lane_width hero_waypoint / 2).

(** The JSON document of a run. *)
Definition document (frames : list Z) (distances : list R) : json_dict :=
  [("frames"%string, map JInt frames); ("distance"%string, map JFloat distances)].

End Extractor.

(** ** Concrete recordings and waypoints *)

Module Examples.

Import ControlLossMetric.

(** A level lane along the x axis, 4 m wide: heading 0, right vector along
    y. *)
Definition wp_level : Waypoint :=
  Wp (Trans (Vec 0 0 0) (Rot 0 0 0)) 4 (Vec 0 1 0) (Vec 1 0 0).

(** The map of a straight level road along the x axis: the nearest waypoint
    of a location is its foot on the axis. *)
Definition map_level (loc : Location) : Waypoint :=
  Wp (Trans (Vec (x loc) 0 0) (Rot 0 0 0)) 4 (Vec 0 1 0) (Vec 1 0 0).

(** The same lane banked about its axis by the angle of cosine 12/13 and
    sine 5/13: the right vector leaves the horizontal plane. Its axes are
    of unit length and perpendicular. *)
Definition wp_banked : Waypoint :=
  Wp (Trans (Vec 0 0 0) (Rot 0 0 (atan (5 / 12) * 180 / PI))) 4
     (Vec 0 (12 / 13) (- (5 / 13))) (Vec 1 0 0).

(** A malformed waypoint: right vector of length 0. *)
Definition wp_degenerate : Waypoint :=
  Wp (Trans (Vec 0 0 0) (Rot 0 0 0)) 4 (Vec 0 0 0) (Vec 1 0 0).

(** Three recorded poses half a metre to the right of the lane centre. *)
Definition straight_run : list Transform :=
  [Trans (Vec 0 (1 / 2) 0) (Rot 0 0 0);
   Trans (Vec 1 (1 / 2) 0) (Rot 0 0 0);
   Trans (Vec 2 (1 / 2) 0) (Rot 0 0 0)].

(** A recording: the ego's alive frames and the transforms it hands out. *)
Definition recording (start end_ : option Z) (states : list Transform)
  : MetricsLog :=
  Log Z 0%Z (fun _ => (start, end_)) (fun _ _ _ _ => states).

Definition straight_log : MetricsLog :=
  recording (Some 1%Z) (Some 4%Z) straight_run.

(** A recording in which the ego has an empty alive range. *)
Definition empty_log : MetricsLog := recording (Some 1%Z) (Some 1%Z) [].

(** A recording whose alive-frame query has no bounds to give. *)
Definition missing_log : MetricsLog := recording None None [].

(** A waypoint whose right vector has the tiny length 10^-9. *)
Definition wp_tiny : Waypoint :=
  Wp (Trans (Vec 0 0 0) (Rot 0 0 0)) 4 (Vec 0 (1 / 1000000000) 0) (Vec 1 0 0).

(** An environment for the scenario constructors: the module namespace holds
    the names the module itself defines or imports by name, the base-class
    initializer and the lane walk succeed. *)
Definition module_globals : gmap string ObjectCrashVehicle.obj :=
  list_to_map
    (map (fun name : string => (name, ObjectCrashVehicle.Handle name))
       ["py_trees"; "TimeOut"; "ActorConfigurationData";
        "get_location_in_distance"; "OBJECT_CROSSING_SCENARIOS";
        "StationaryObjectCrossing"; "DynamicObjectCrossing";
        "carla"; "math"]%string).

Definition ego_on_level : ObjectCrashVehicle.Vehicle :=
  ObjectCrashVehicle.Veh (Vec 0 0 0) map_level.

Definition env_ok : ObjectCrashVehicle.Env :=
  ObjectCrashVehicle.MkEnv module_globals
    (fun _ _ => Ok tt)
    (fun ego d => Ok (Vec d 0 0, d)).

(** Three recorded poses at different distances from the lane centre: half
    a metre to the right, one metre to the right, one metre to the left. *)
Definition drift_run : list Transform :=
  [Trans (Vec 0 (1 / 2) 0) (Rot 0 0 0);
   Trans (Vec 1 1 0) (Rot 0 0 0);
   Trans (Vec 2 (- 1) 0) (Rot 0 0 0)].

(** The straight recording with an alive range one frame longer than the
    transforms it hands out. *)
Definition long_log : MetricsLog :=
  recording (Some 1%Z) (Some 5%Z) straight_run.

End Examples.

(** ** Stateful code: behaviour trees and the actor pool *)

Module Stateful.

(** A method that reads and writes a state [S] and may raise: the state at
    the raise is kept. *)
Definition prog (S A : Type) : Type := S -> result A * S.

#[export] Instance prog_ret {S} : MRet (prog S) := fun _ a st => (Ok a, st).
#[export] Instance prog_bind {S} : MBind (prog S) := fun _ _ f m st =>
  match m st with
  | (Ok a, st') => f a st'
  | (Raise e, st') => (Raise e, st')
  end.

(** A computation without effect on the state. *)
Definition lift {S A} (r : result A) : prog S A := fun st => (r, st).

(** [obj.attr] where [obj] may be [None]. *)
Definition AttributeError : exn := Failure "AttributeError".

Definition getattr {O A} (obj : option O) (attr : O -> A) : result A :=
  match obj with
  | Some o => Ok (attr o)
  | None => Raise AttributeError
  end.

End Stateful.

Import Stateful.

(** The part of [py_trees] and of the atomic behaviours the scenarios use:
    objects are built, and children are appended to composites. A composite
    is a cell of the store, named by its position; appending to it is seen
    through every reference to it. *)
Module PyTrees.

Inductive ParallelPolicy : Type := SUCCESS_ON_ONE | SUCCESS_ON_ALL.

(** The atomic behaviours and conditions, by class and constructor
    arguments, over the type [A] of actors. *)
Inductive atomic (A : Type) : Type :=
  | InTimeToArrivalToVehicle (other_actor actor : A) (time : R)
  | InTriggerDistanceToVehicle (other_actor actor : A) (distance : R)
  | KeepVelocity (actor : A) (target_velocity : R)
  | AccelerateToVelocity (actor : A) (throttle_value target_velocity : R)
  | DriveDistance (actor : A) (distance : R)
  | StopVehicle (actor : A) (brake_value : R)
  | HandBrakeVehicle (actor : A) (hand_brake_value : bool)
  | WaypointFollower (actor : A) (target_speed : R)
  | TimeOut (timeout : R).
Arguments InTimeToArrivalToVehicle {A}.
Arguments InTriggerDistanceToVehicle {A}.
Arguments KeepVelocity {A}.
Arguments AccelerateToVelocity {A}.
Arguments DriveDistance {A}.
Arguments StopVehicle {A}.
Arguments HandBrakeVehicle {A}.
Arguments WaypointFollower {A}.
Arguments TimeOut {A}.

(** [Sequence()], [Parallel(policy=p)], [Parallel()]. *)
Inductive composite_kind : Type :=
  | Sequence
  | Parallel (policy : option ParallelPolicy).

Inductive behaviour (A : Type) : Type :=
  | Atom (b : atomic A)
  | Composite (ref : nat).
Arguments Atom {A}.
Arguments Composite {A}.

Record composite (A : Type) : Type := Comp {
  kind : composite_kind;
  children : list (behaviour A)
}.
Arguments Comp {A}.
Arguments kind {A}.
Arguments children {A}.

Definition store (A : Type) : Type := list (composite A).

(** The constructor of a composite: a new cell without children. *)
Definition new_composite {A} (k : composite_kind) : prog (store A) nat :=
  fun st => (Ok (length st), st ++ [Comp k []]).

(** [parent.add_child(child)]. *)
Definition add_child {A} (parent : nat) (child : behaviour A)
  : prog (store A) unit :=
  fun st =>
    match st !! parent with
    | Some c => (Ok tt, <[parent := Comp (kind c) (children c ++ [child])]> st)
    | None => (Raise (Failure "not a composite"), st)
    end.

(** The tree below a behaviour, read from the store. *)
#[local] Unset Elimination Schemes.
Inductive tree (A : Type) : Type :=
  | Leaf (b : atomic A)
  | Node (k : composite_kind) (subtrees : list (tree A)).
#[local] Set Elimination Schemes.
Arguments Leaf {A}.
Arguments Node {A}.

Fixpoint view {A} (depth : nat) (st : store A) (b : behaviour A)
  : option (tree A) :=
  match b with
  | Atom a => Some (Leaf a)
  | Composite ref =>
      match depth with
      | O => None
      | S depth' =>
          c ← st !! ref;
          subtrees ← mapM (view depth' st) (children c);
          Some (Node (kind c) subtrees)
      end
  end.

End PyTrees.

(** ** [object_crash_vehicle.py]: the behaviour of the dynamic scenario *)

Module ObjectCrashBehavior.

Import PyTrees ObjectCrashVehicle.

(** Class attributes of [DynamicObjectCrossing]. *)
Definition _other_actor_target_velocity : R := 10.
Definition _other_actor_max_brake : R := 1.
Definition _time_to_reach : R := 12.

(** [DynamicObjectCrossing._create_behavior], lines 173-218, on the
    attributes [ego_vehicle] and [other_actors] of [self]. *)
Definition _create_behavior (ego_vehicle : Vehicle)
    (other_actors : list Vehicle)
  : prog (store Vehicle) (behaviour Vehicle) :=
  let lane_width :=
    lane_width (get_waypoint ego_vehicle (get_location ego_vehicle)) in
  let lane_width := lane_width + (125 / 100 * lane_width) in
  (* leaf nodes *)
  a ← lift (getitem other_actors 0);
  let start_condition :=
    InTimeToArrivalToVehicle a ego_vehicle _time_to_reach in
  a ← lift (getitem other_actors 0);
  let actor_velocity := KeepVelocity a _other_actor_target_velocity in
  a ← lift (getitem other_actors 0);
  let actor_drive := DriveDistance a (3 / 10 * lane_width) in
  a ← lift (getitem other_actors 0);
  let actor_start_cross_lane :=
    AccelerateToVelocity a 1 _other_actor_target_velocity in
  a ← lift (getitem other_actors 0);
  let actor_cross_lane := DriveDistance a lane_width in
  a ← lift (getitem other_actors 0);
  let actor_stop_crossed_lane := StopVehicle a _other_actor_max_brake in
  let timeout_other_actor := TimeOut 5 in
  (* non leaf nodes *)
  root ← new_composite (Parallel (Some SUCCESS_ON_ONE));
  scenario_sequence ← new_composite Sequence;
  keep_velocity_other ← new_composite (Parallel (Some SUCCESS_ON_ONE));
  keep_velocity ← new_composite (Parallel (Some SUCCESS_ON_ONE));
  (* building tree *)
  _ ← add_child root (Composite scenario_sequence);
  a ← lift (getitem other_actors 0);
  _ ← add_child scenario_sequence (Atom (HandBrakeVehicle a true));
  _ ← add_child scenario_sequence (Atom start_condition);
  a ← lift (getitem other_actors 0);
  _ ← add_child scenario_sequence (Atom (HandBrakeVehicle a false));
  _ ← add_child scenario_sequence (Composite keep_velocity);
  _ ← add_child scenario_sequence (Composite keep_velocity_other);
  _ ← add_child scenario_sequence (Atom actor_stop_crossed_lane);
  _ ← add_child scenario_sequence (Atom timeout_other_actor);
  _ ← add_child keep_velocity (Atom actor_velocity);
  _ ← add_child keep_velocity (Atom actor_drive);
  _ ← add_child keep_velocity_other (Atom actor_start_cross_lane);
  _ ← add_child keep_velocity_other (Atom actor_cross_lane);
  mret (Composite root).

End ObjectCrashBehavior.

(** ** [srunner/scenarios/maneuver_opposite_direction.py] *)

Module ManeuverOppositeDirection.

Import PyTrees.

(** The attributes [__init__] assigns before it calls the base class. *)
Record attributes : Type := Attrs {
  _first_vehicle_location : R;
  _second_vehicle_location : R;
  _ego_vehicle_drive_distance : R;
  _start_distance : R;
  _first_vehicle_speed : R;
  _second_vehicle_speed : R;
  _reference_waypoint : Waypoint
}.

(** Lines 42-49; [reference_waypoint] is
    [world.get_map().get_waypoint(config.ego_vehicle.transform.location)]. *)
Definition init_attributes (reference_waypoint : Waypoint) : attributes :=
  let _first_vehicle_location := 50 in
  let _second_vehicle_location := _first_vehicle_location + 40 in
  let _ego_vehicle_drive_distance := _second_vehicle_location + 50 in
  let _start_distance := _first_vehicle_location * (8 / 10) in
  Attrs _first_vehicle_location _second_vehicle_location
        _ego_vehicle_drive_distance _start_distance 55 60 reference_waypoint.

Section Scenario.

(** Actors, the actor pool, and the code outside these sources:
    [scenario_helper.get_waypoint_in_distance], [Waypoint.get_left_lane]
    (a waypoint or [None]) and [CarlaActorPool.request_new_actor]. *)
Variables Actor Pool : Type.
Variable get_waypoint_in_distance : Waypoint -> R -> result (Waypoint * R).
Variable get_left_lane : Waypoint -> option Waypoint.
Variable request_new_actor : string -> Transform -> prog Pool Actor.

(** [initialize_actors], lines 58-70. *)
Definition initialize_actors (self : attributes) : prog Pool (list Actor) :=
  '(first_vehicle_waypoint, _) ←
    lift (get_waypoint_in_distance (_reference_waypoint self)
            (_first_vehicle_location self));
  '(second_vehicle_waypoint, _) ←
    lift (get_waypoint_in_distance (_reference_waypoint self)
            (_second_vehicle_location self));
  let second_vehicle_waypoint := get_left_lane second_vehicle_waypoint in
  first_vehicle ←
    request_new_actor "vehicle.tesla.model3" (transform first_vehicle_waypoint);
  second_transform ← lift (getattr second_vehicle_waypoint transform);
  second_vehicle ← request_new_actor "vehicle.audi.tt" second_transform;
  mret [first_vehicle; second_vehicle].

(** [_create_behavior], lines 72-101, on the attributes of [self]. *)
Definition _create_behavior (self : attributes) (ego_vehicle : Actor)
    (other_actors : list Actor) : prog (store Actor) (behaviour Actor) :=
  (* leaf nodes *)
  let ego_drive_distance :=
    DriveDistance ego_vehicle (_ego_vehicle_drive_distance self) in
  a ← lift (getitem other_actors 0);
  let start_trigger_distance :=
    InTriggerDistanceToVehicle a ego_vehicle (_start_distance self) in
  a ← lift (getitem other_actors 0);
  let waypoint_follower_1 := WaypointFollower a (_first_vehicle_speed self) in
  a ← lift (getitem other_actors 1);
  let waypoint_follower_2 := WaypointFollower a (_second_vehicle_speed self) in
  (* non-leaf nodes *)
  root ← new_composite (Parallel (Some SUCCESS_ON_ONE));
  sequence ← new_composite Sequence;
  waypoint_follow_node ← new_composite (Parallel None);
  (* building tree *)
  _ ← add_child root (Atom ego_drive_distance);
  _ ← add_child root (Composite sequence);
  _ ← add_child sequence (Atom start_trigger_distance);
  _ ← add_child sequence (Composite waypoint_follow_node);
  _ ← add_child waypoint_follow_node (Atom waypoint_follower_1);
  _ ← add_child waypoint_follow_node (Atom waypoint_follower_2);
  mret (Composite root).

End Scenario.

End ManeuverOppositeDirection.

(** ** A concrete road and actor pool for the opposite-direction scenario *)

Module ScenarioExamples.

(** The pool records the requests; an actor is the position of its
    request. *)
Definition pool : Type := list (string * Transform).

Definition request (model : string) (spawn : Transform) : prog pool nat :=
  fun p => (Ok (length p), p ++ [(model, spawn)]).

(** Walking a straight lane along the x axis. *)
Definition walk (wp : Waypoint) (d : R) : result (Waypoint * R) :=
  Ok (Wp (Trans (add (location (transform wp)) (Vec d 0 0))
                (rotation (transform wp)))
         (lane_width wp) (get_right_vector wp) (get_forward_vector wp), d).

(** A road with an oncoming lane on the left, and a road without. *)
Definition oncoming_lane (wp : Waypoint) : option Waypoint :=
  Some (Wp (Trans (add (location (transform wp)) (Vec 0 (- lane_width wp) 0))
                  (Rot 0 180 0))
           (lane_width wp) (Vec 0 (-1) 0) (Vec (-1) 0 0)).

Definition no_left_lane (_ : Waypoint) : option Waypoint := None.

End ScenarioExamples.

(** * Properties *)

Import ControlLossMetric.

(** ** Python helpers *)

Section PyFacts.

Lemma bind_Ok {A B} (m : result A) (f : A -> result B) (b : B) :
  m ≫= f = Ok b <-> exists a, m = Ok a /\ f a = Ok b.
Proof.
  destruct m as [a|e]; simpl; split.
  - intros H. exists a. split; [reflexivity | exact H].
  - intros (a' & Ha & H). injection Ha as ->. exact H.
  - intros H. discriminate H.
  - intros (a' & Ha & _). discriminate Ha.
Qed.

Lemma range_length (start stop : Z) :
  length (range start stop) = Z.to_nat (stop - start).
Proof. unfold range. rewrite length_map, length_seq. reflexivity. Qed.

Lemma range_lookup (start stop : Z) (n : nat) :
  (n < Z.to_nat (stop - start))%nat ->
  range start stop !! n = Some (start + Z.of_nat n)%Z.
Proof.
  intros Hn. unfold range. rewrite list_lookup_fmap.
  rewrite lookup_seq_lt by exact Hn. reflexivity.
Qed.

Lemma range_In (start stop i : Z) :
  In i (range start stop) <-> (start <= i < stop)%Z.
Proof.
  unfold range. rewrite in_map_iff. split.
  - intros (n & <- & Hn). apply in_seq in Hn. lia.
  - intros Hi. exists (Z.to_nat (i - start)). split; [lia|].
    apply in_seq. lia.
Qed.

Lemma range_empty (start stop : Z) :
  (stop <= start)%Z -> range start stop = [].
Proof.
  intros H. unfold range.
  replace (Z.to_nat (stop - start)) with 0%nat by lia. reflexivity.
Qed.

Lemma getitem_nonneg {A} (l : list A) (i : Z) :
  (0 <= i)%Z ->
  getitem l i = match nth_error l (Z.to_nat i) with
                | Some a => Ok a
                | None => Raise IndexError
                end.
Proof.
  intros Hi. unfold getitem.
  destruct (Z.ltb_spec i 0); [lia|].
  destruct (Z.ltb_spec i 0); [lia|]. simpl.
  destruct (Z.leb_spec (Z.of_nat (length l)) i) as [Hle|Hlt]; [|reflexivity].
  assert (Hn : nth_error l (Z.to_nat i) = None)
    by (apply nth_error_None; lia).
  rewrite Hn. reflexivity.
Qed.

End PyFacts.

(** ** Vectors and the projection *)

Section Geometry.

Lemma norm2_nonneg (v : Vector3D) : 0 <= Spec.norm2 v.
Proof. unfold Spec.norm2, dot3. nra. Qed.

Lemma norm2_zero (v : Vector3D) : Spec.norm2 v = 0 <-> v = Vec 0 0 0.
Proof.
  destruct v as [a b c]. unfold Spec.norm2, dot3. simpl. split.
  - intros H. assert (a = 0) by nra. assert (b = 0) by nra.
    assert (c = 0) by nra. subst. reflexivity.
  - intros H. injection H as -> -> ->. lra.
Qed.

Lemma norm_pos (v : Vector3D) : Spec.norm2 v <> 0 -> 0 < Spec.norm v.
Proof.
  intros H. apply sqrt_lt_R0. pose proof (norm2_nonneg v). lra.
Qed.

Lemma norm_norm (v : Vector3D) : Spec.norm v * Spec.norm v = Spec.norm2 v.
Proof. apply sqrt_sqrt, norm2_nonneg. Qed.

Lemma norm2_rmul (s : R) (v : Vector3D) :
  Spec.norm2 (rmul s v) = s * s * Spec.norm2 v.
Proof. unfold Spec.norm2, dot3, rmul. simpl. ring. Qed.

Lemma norm_rmul (s : R) (v : Vector3D) :
  Spec.norm (rmul s v) = Rabs s * Spec.norm v.
Proof.
  unfold Spec.norm. rewrite norm2_rmul.
  rewrite sqrt_mult by (try apply norm2_nonneg; nra).
  f_equal. change (s * s) with (Rsqr s). apply sqrt_Rsqr_abs.
Qed.

(** The magnitude is the absolute value of the scalar projection. *)
Lemma projection_magnitude_abs (right v : Vector3D) :
  Spec.norm2 right <> 0 ->
  Spec.projection_magnitude right v = Rabs (Spec.component_along right v).
Proof.
  intros Hr. unfold Spec.projection_magnitude, Spec.component_along.
  rewrite norm_rmul.
  pose proof (norm_pos right Hr) as Hp.
  pose proof (norm_norm right) as Hn.
  unfold Rdiv. rewrite !Rabs_mult.
  rewrite <- Hn.
  rewrite (Rabs_inv (Spec.norm right)).
  rewrite (Rabs_inv (Spec.norm right * Spec.norm right)).
  rewrite Rabs_mult, (Rabs_pos_eq (Spec.norm right)) by lra.
  field. lra.
Qed.

(** The code on any input: the unguarded division fails on the zero right
    vector and on nothing else; otherwise the value is the specified one. *)
Lemma project_dist_eq (wp : Waypoint) (loc : Location) :
  project_dist wp loc =
    if Req_dec_T (Spec.norm2 (get_right_vector wp)) 0
    then Raise ZeroDivisionError
    else Ok (Spec.signedLateralOffset wp loc).
Proof.
  unfold project_dist, math_sqrt.
  pose proof (norm2_nonneg (get_right_vector wp)) as Hnn.
  unfold Spec.norm2, dot3 in *.
  set (n := x (get_right_vector wp) * x (get_right_vector wp)
            + y (get_right_vector wp) * y (get_right_vector wp)
            + z (get_right_vector wp) * z (get_right_vector wp)) in *.
  destruct (Rlt_dec n 0) as [Hneg|_]; [lra|]. cbn [mbind result_bind].
  unfold truediv. rewrite (sqrt_sqrt n Hnn).
  destruct (Req_dec_T n 0) as [Hz|Hnz]; [reflexivity|].
  cbn [mbind result_bind].
  set (pv := rmul _ (get_right_vector wp)).
  pose proof (norm2_nonneg pv) as Hpv. unfold Spec.norm2, dot3 in Hpv.
  destruct (Rlt_dec (x pv * x pv + y pv * y pv + z pv * z pv) 0)
    as [Hneg|_]; [lra|].
  cbn [mbind result_bind]. reflexivity.
Qed.

Lemma project_dist_ok (wp : Waypoint) (loc : Location) :
  get_right_vector wp <> Vec 0 0 0 ->
  project_dist wp loc = Ok (Spec.signedLateralOffset wp loc).
Proof.
  intros Hr. rewrite project_dist_eq.
  destruct (Req_dec_T _ 0) as [Hz|_]; [|reflexivity].
  apply norm2_zero in Hz. contradiction.
Qed.

Lemma project_dist_zero_right (wp : Waypoint) (loc : Location) :
  get_right_vector wp = Vec 0 0 0 ->
  project_dist wp loc = Raise ZeroDivisionError.
Proof.
  intros Hr. rewrite project_dist_eq.
  destruct (Req_dec_T _ 0) as [_|Hnz]; [reflexivity|].
  exfalso. apply Hnz. apply norm2_zero. exact Hr.
Qed.

End Geometry.

(** ** The loop of the metric *)

Section Loop.

Variable get_waypoint : Location -> Waypoint.
Variable tl : list Transform.

Lemma loop_body_iteration (acc : lists) (i : Z) :
  loop_body get_waypoint tl acc i =
    Extractor.iteration get_waypoint tl i ≫= fun s =>
      Ok (Lists (distances_list acc ++ [s.1])
                (lane_width_list acc ++ [s.2])
                (frames_list acc ++ [i])).
Proof.
  unfold loop_body, Extractor.iteration.
  destruct (getitem tl (i - 1)) as [tr|e]; [|reflexivity].
  cbn [mbind result_bind].
  destruct (project_dist _ _) as [d|e]; reflexivity.
Qed.

(** A loop that ends normally has appended one entry per element, in
    order. *)
Lemma for_each_Ok (xs : list Z) : forall (acc ls : lists),
  for_each (loop_body get_waypoint tl) acc xs = Ok ls <->
  exists smp : list (R * R),
    Forall2 (fun i s => Extractor.iteration get_waypoint tl i = Ok s) xs smp /\
    ls = Lists (distances_list acc ++ map fst smp)
               (lane_width_list acc ++ map snd smp)
               (frames_list acc ++ xs).
Proof.
  induction xs as [|i xs IH]; intros acc ls.
  - simpl. split.
    + intros H. injection H as <-. exists []. split; [constructor|].
      destruct acc; simpl. rewrite !app_nil_r. reflexivity.
    + intros (smp & HF & ->). inversion HF; subst. simpl.
      destruct acc; simpl. rewrite !app_nil_r. reflexivity.
  - cbn [for_each]. rewrite bind_Ok. split.
    + intros (acc' & Hb & Hrest).
      rewrite loop_body_iteration in Hb. apply bind_Ok in Hb.
      destruct Hb as (s & Hs & Hacc). injection Hacc as <-.
      apply IH in Hrest. destruct Hrest as (smp & HF & ->).
      exists (s :: smp). split; [constructor; assumption|].
      simpl. rewrite <- !app_assoc. reflexivity.
    + intros (smp & HF & ->). inversion HF as [|? s ? smp' Hs HF']; subst.
      eexists. split.
      * rewrite loop_body_iteration, Hs. reflexivity.
      * apply IH. exists smp'. split; [exact HF'|].
        simpl. rewrite <- !app_assoc. reflexivity.
Qed.

(** A loop whose iterations all end normally ends normally. *)
Lemma for_each_returns (xs : list Z) (acc : lists) :
  Forall (fun i => returns (Extractor.iteration get_waypoint tl i)) xs ->
  returns (for_each (loop_body get_waypoint tl) acc xs).
Proof.
  intros HF.
  assert (exists smp, Forall2
    (fun i s => Extractor.iteration get_waypoint tl i = Ok s) xs smp)
    as (smp & Hsmp).
  { induction HF as [|i xs (s & Hs) _ (smp & IH)].
    - exists []. constructor.
    - exists (s :: smp). constructor; assumption. }
  eexists. apply for_each_Ok. exists smp. split; [exact Hsmp|reflexivity].
Qed.

(** A loop with an iteration that raises, raises. *)
Lemma for_each_raises (xs : list Z) : forall (acc : lists) (i : Z),
  In i xs -> raises (Extractor.iteration get_waypoint tl i) ->
  raises (for_each (loop_body get_waypoint tl) acc xs).
Proof.
  induction xs as [|j xs IH]; intros acc i Hin (e & He); [destruct Hin|].
  cbn [for_each]. rewrite loop_body_iteration.
  destruct (Extractor.iteration get_waypoint tl j) as [s|e'] eqn:Hj.
  - cbn [mbind result_bind]. destruct Hin as [->|Hin].
    + rewrite He in Hj. discriminate Hj.
    + apply (IH _ i Hin). exists e. exact He.
  - exists e'. reflexivity.
Qed.

End Loop.

(** ** One frame, and a whole run *)

Section Frames.

Variable get_waypoint : Location -> Waypoint.
Variable tl : list Transform.

Lemma iteration_Ok (i : Z) (d w : R) :
  Extractor.iteration get_waypoint tl i = Ok (d, w) <->
  exists tr, getitem tl (i - 1) = Ok tr /\
    get_right_vector (get_waypoint (location tr)) <> Vec 0 0 0 /\
    d = Spec.signedLateralOffset (get_waypoint (location tr)) (location tr) /\
    w = lane_width (get_waypoint (location tr)) / 2.
Proof.
  unfold Extractor.iteration. rewrite bind_Ok. split.
  - intros (tr & Htr & H). exists tr. split; [exact Htr|].
    rewrite project_dist_eq in H.
    destruct (Req_dec_T _ 0) as [Hz|Hnz]; [discriminate H|].
    cbn [mbind result_bind] in H. injection H as <- <-.
    split; [|split; reflexivity].
    intros Hr. apply Hnz. apply norm2_zero. exact Hr.
  - intros (tr & Htr & Hr & -> & ->). exists tr. split; [exact Htr|].
    rewrite (project_dist_ok _ _ Hr). reflexivity.
Qed.

(** On a frame number [N >= 1] the subscript [N - 1] is a plain position. *)
Lemma iteration_sample (N : Z) (d w : R) :
  (1 <= N)%Z ->
  Extractor.iteration get_waypoint tl N = Ok (d, w) ->
  Extractor.sample get_waypoint tl N = Some (Extractor.Sample N d w).
Proof.
  intros HN H. apply iteration_Ok in H.
  destruct H as (tr & Htr & _ & -> & ->).
  rewrite getitem_nonneg in Htr by lia.
  unfold Extractor.sample.
  destruct (nth_error tl (Z.to_nat (N - 1))) as [tr'|]; [|discriminate Htr].
  injection Htr as ->. reflexivity.
Qed.

Lemma iteration_out_of_range (N : Z) :
  (1 <= N)%Z -> nth_error tl (Z.to_nat (N - 1)) = None ->
  Extractor.iteration get_waypoint tl N = Raise IndexError.
Proof.
  intros HN Hnone. unfold Extractor.iteration.
  rewrite getitem_nonneg by lia. rewrite Hnone. reflexivity.
Qed.

(** The lists of a run that ends normally, position by position. *)
Lemma collect_Ok (start end_ : Z) (ls : lists) :
  collect get_waypoint tl start end_ = Ok ls ->
  frames_list ls = range start end_ /\
  length (distances_list ls) = Z.to_nat (end_ - start) /\
  length (lane_width_list ls) = Z.to_nat (end_ - start) /\
  forall (n : nat) (i : Z), frames_list ls !! n = Some i ->
    exists d w, Extractor.iteration get_waypoint tl i = Ok (d, w) /\
      distances_list ls !! n = Some d /\
      lane_width_list ls !! n = Some w.
Proof.
  unfold collect. intros H. apply for_each_Ok in H.
  destruct H as (smp & HF & ->). simpl.
  pose proof (Forall2_length _ _ _ HF) as Hlen.
  rewrite range_length in Hlen.
  rewrite !length_map. repeat split; try (symmetry; exact Hlen).
  intros n i Hi.
  destruct (Forall2_lookup_l _ _ _ _ _ HF Hi) as ([d w] & Hs & Hit).
  exists d, w. split; [exact Hit|].
  change (map fst smp) with (fst <$> smp).
  change (map snd smp) with (snd <$> smp).
  rewrite !list_lookup_fmap, Hs. split; reflexivity.
Qed.

(** A run over frames that all have a recorded transform and a waypoint with
    a non-zero right vector ends normally. *)
Lemma collect_returns (start end_ : Z) :
  (forall i, (start <= i < end_)%Z ->
     exists tr, getitem tl (i - 1) = Ok tr /\
       get_right_vector (get_waypoint (location tr)) <> Vec 0 0 0) ->
  returns (collect get_waypoint tl start end_).
Proof.
  intros H. apply for_each_returns. apply List.Forall_forall.
  intros i Hi. apply range_In in Hi.
  destruct (H i Hi) as (tr & Htr & Hr).
  eexists (_, _). apply iteration_Ok. exists tr.
  repeat split; [exact Htr|exact Hr].
Qed.

End Frames.

Section Signs.

Lemma projection_magnitude_nonneg (right v : Vector3D) :
  0 <= Spec.projection_magnitude right v.
Proof. unfold Spec.projection_magnitude, Spec.norm. apply sqrt_pos. Qed.

Lemma signedLateralOffset_sign (wp : Waypoint) (loc : Location) :
  let v := sub loc (location (transform wp)) in
  let c := Spec.cross_z (get_forward_vector wp) v in
  (c < 0 -> Spec.signedLateralOffset wp loc <= 0) /\
  (0 <= c -> 0 <= Spec.signedLateralOffset wp loc).
Proof.
  intros v c. unfold Spec.signedLateralOffset. fold v. fold c.
  pose proof (projection_magnitude_nonneg (get_right_vector wp) v).
  destruct (Rlt_dec c 0); split; intros; lra.
Qed.

Lemma signedLateralOffset_abs (wp : Waypoint) (loc : Location) :
  get_right_vector wp <> Vec 0 0 0 ->
  Rabs (Spec.signedLateralOffset wp loc) =
  Rabs (Spec.component_along (get_right_vector wp)
          (sub loc (location (transform wp)))).
Proof.
  intros Hr. unfold Spec.signedLateralOffset.
  assert (Hn : Spec.norm2 (get_right_vector wp) <> 0)
    by (intros Hz; apply Hr, norm2_zero, Hz).
  rewrite (projection_magnitude_abs _ _ Hn).
  destruct (Rlt_dec _ 0).
  - rewrite Rabs_Ropp. apply Rabs_Rabsolu.
  - apply Rabs_Rabsolu.
Qed.

End Signs.

(** ** The straight recording *)

Section Straight.

Lemma norm_unit_y : Spec.norm (Vec 0 1 0) = 1.
Proof.
  unfold Spec.norm, Spec.norm2, dot3. simpl.
  replace (0 * 0 + 1 * 1 + 0 * 0) with 1 by ring. apply sqrt_1.
Qed.

Lemma straight_offset (a : R) :
  Spec.signedLateralOffset (Examples.map_level (Vec a (1 / 2) 0))
    (Vec a (1 / 2) 0) = 1 / 2.
Proof.
  unfold Spec.signedLateralOffset, Examples.map_level. simpl.
  rewrite projection_magnitude_abs
    by (unfold Spec.norm2, dot3; simpl; lra).
  unfold Spec.component_along. rewrite norm_unit_y.
  unfold Spec.cross_z, dot3, sub. simpl.
  destruct (Rlt_dec _ 0) as [H|_]; [lra|].
  replace ((0 * (a - a) + 1 * (1 / 2 - 0) + 0 * (0 - 0)) / 1) with (1 / 2)
    by field.
  apply Rabs_pos_eq. lra.
Qed.

Lemma straight_iteration (i : Z) (a : R) :
  getitem Examples.straight_run (i - 1) = Ok (Trans (Vec a (1 / 2) 0) (Rot 0 0 0)) ->
  Extractor.iteration Examples.map_level Examples.straight_run i
  = Ok (1 / 2, 4 / 2).
Proof.
  intros H. apply iteration_Ok. eexists. split; [exact H|].
  split; [|split].
  - simpl. intros Hv. injection Hv as Hv. lra.
  - symmetry. apply straight_offset.
  - reflexivity.
Qed.

Lemma straight_collect :
  collect Examples.map_level Examples.straight_run 1 4 =
  Ok (Lists [1 / 2; 1 / 2; 1 / 2] [4 / 2; 4 / 2; 4 / 2] [1; 2; 3]%Z).
Proof.
  apply for_each_Ok. exists [(1 / 2, 4 / 2); (1 / 2, 4 / 2); (1 / 2, 4 / 2)].
  split; [|reflexivity].
  repeat constructor.
  - apply (straight_iteration _ 0). reflexivity.
  - apply (straight_iteration _ 1). reflexivity.
  - apply (straight_iteration _ 2). reflexivity.
Qed.

End Straight.

(** ** The samples and the written file *)

Section Output.

Lemma samples_of_lookup (fs : list Z) : forall (ds ws : list R) (n : nat)
    (f : Z) (d w : R),
  fs !! n = Some f -> ds !! n = Some d -> ws !! n = Some w ->
  Extractor.samples_of fs ds ws !! n = Some (Extractor.Sample f d w).
Proof.
  induction fs as [|f0 fs IH]; intros ds ws n f d w Hf Hd Hw.
  - destruct n; discriminate Hf.
  - destruct ds as [|d0 ds]; [destruct n; discriminate Hd|].
    destruct ws as [|w0 ws]; [destruct n; discriminate Hw|].
    destruct n as [|n]; simpl in *.
    + congruence.
    + apply IH; assumption.
Qed.

Lemma samples_of_length (fs : list Z) : forall (ds ws : list R),
  length ds = length fs -> length ws = length fs ->
  length (Extractor.samples_of fs ds ws) = length fs.
Proof.
  induction fs as [|f0 fs IH]; intros ds ws Hd Hw; [reflexivity|].
  destruct ds as [|d0 ds]; [discriminate Hd|].
  destruct ws as [|w0 ws]; [discriminate Hw|].
  simpl in *. f_equal. apply IH; congruence.
Qed.

Lemma create_metrics_int_bounds (get_waypoint : Location -> Waypoint)
    (metrics_log : MetricsLog) (files : gmap string json_dict)
    (start end_ : Z) :
  get_actor_alive_frames metrics_log (get_ego_vehicle_id metrics_log)
    = (Some start, Some end_) ->
  _create_metrics get_waypoint metrics_log files =
    match collect get_waypoint
            (get_all_actor_states metrics_log (get_ego_vehicle_id metrics_log)
               "transform" (Some start) (Some end_)) start end_ with
    | Raise e => (Raise e, files)
    | Ok ls => (Ok tt, <[output_path := results_of ls]> files)
    end.
Proof. intros H. unfold _create_metrics. rewrite H. reflexivity. Qed.

Lemma create_metrics_none_bounds (get_waypoint : Location -> Waypoint)
    (metrics_log : MetricsLog) (files : gmap string json_dict)
    (a b : option Z) :
  get_actor_alive_frames metrics_log (get_ego_vehicle_id metrics_log) = (a, b) ->
  a = None \/ b = None ->
  _create_metrics get_waypoint metrics_log files = (Raise TypeError, files).
Proof.
  intros H Hnone. unfold _create_metrics. rewrite H.
  destruct a, b; try reflexivity. destruct Hnone; discriminate.
Qed.

Lemma straight_create_metrics (files : gmap string json_dict) :
  _create_metrics Examples.map_level Examples.straight_log files =
  (Ok tt, <[output_path :=
             Extractor.document [1; 2; 3]%Z [1 / 2; 1 / 2; 1 / 2]]> files).
Proof.
  rewrite (create_metrics_int_bounds _ _ _ 1 4) by reflexivity.
  simpl. rewrite straight_collect. reflexivity.
Qed.

End Output.

(** ** The first frame that fails *)

Section FirstFailure.

Variable get_waypoint : Location -> Waypoint.

Lemma range_cons (start stop : Z) :
  (start < stop)%Z -> range start stop = start :: range (start + 1) stop.
Proof.
  intros H. unfold range.
  replace (Z.to_nat (stop - start)) with (S (Z.to_nat (stop - (start + 1))))
    by lia.
  cbn [seq map]. f_equal; [lia|].
  rewrite <- seq_shift, map_map. apply map_ext. intros n. lia.
Qed.

Lemma iteration_raises_cases (tl : list Transform) (i : Z) (e : exn) :
  Extractor.iteration get_waypoint tl i = Raise e <->
  (getitem tl (i - 1) = Raise IndexError /\ e = IndexError) \/
  (exists tr, getitem tl (i - 1) = Ok tr /\
     get_right_vector (get_waypoint (location tr)) = Vec 0 0 0 /\
     e = ZeroDivisionError).
Proof.
  unfold Extractor.iteration.
  destruct (getitem tl (i - 1)) as [tr|e'] eqn:Hg; cbn [mbind result_bind].
  - rewrite project_dist_eq.
    destruct (Req_dec_T _ 0) as [Hz|Hnz]; cbn [mbind result_bind]; split.
    + intros H. injection H as <-. right. exists tr.
      split; [reflexivity|]. split; [apply norm2_zero, Hz|reflexivity].
    + intros [[H _]|(tr' & _ & _ & ->)]; [discriminate H|reflexivity].
    + intros H. discriminate H.
    + intros [[H _]|(tr' & Htr & Hr & _)]; [discriminate H|].
      injection Htr as <-. exfalso. apply Hnz, norm2_zero, Hr.
  - assert (He : e' = IndexError).
    { unfold getitem in Hg.
      destruct (_ || _)%bool; [congruence|].
      destruct (nth_error _ _); congruence. }
    subst e'. split.
    + intros H. injection H as <-. left. split; reflexivity.
    + intros [[_ ->]|(tr' & Htr & _)]; [reflexivity|discriminate Htr].
Qed.

Lemma for_each_first_raise (tl : list Transform) (stop j : Z) (e : exn) :
  (j < stop)%Z ->
  Extractor.iteration get_waypoint tl j = Raise e ->
  forall (n : nat) (start : Z) (acc : lists),
    Z.to_nat (j - start) = n -> (start <= j)%Z ->
    (forall i, (start <= i < j)%Z ->
       returns (Extractor.iteration get_waypoint tl i)) ->
    for_each (loop_body get_waypoint tl) acc (range start stop) = Raise e.
Proof.
  intros Hj He. induction n as [|n IH]; intros start acc Hn Hle Hbefore.
  - assert (start = j) by lia. subst start.
    rewrite range_cons by lia. cbn [for_each].
    rewrite loop_body_iteration, He. reflexivity.
  - rewrite range_cons by lia. cbn [for_each].
    rewrite loop_body_iteration.
    destruct (Hbefore start) as (s & Hs); [lia|].
    rewrite Hs. cbn [mbind result_bind].
    apply IH; [lia|lia|]. intros i Hi. apply Hbefore. lia.
Qed.

End FirstFailure.

(** ** The drifting recording *)

Section Drift.

Lemma level_map_offset (a b c : R) :
  Spec.signedLateralOffset (Examples.map_level (Vec a b c)) (Vec a b c) = b.
Proof.
  unfold Spec.signedLateralOffset, Examples.map_level. simpl.
  rewrite projection_magnitude_abs
    by (unfold Spec.norm2, dot3; simpl; lra).
  unfold Spec.component_along. rewrite norm_unit_y.
  unfold Spec.cross_z, dot3, sub. simpl.
  replace ((0 * (a - a) + 1 * (b - 0) + 0 * (c - 0)) / 1) with b by field.
  replace (1 * (b - 0) - 0 * (a - a)) with b by ring.
  destruct (Rlt_dec b 0) as [H|H].
  - rewrite Rabs_left by exact H. ring.
  - apply Rabs_pos_eq. lra.
Qed.

Lemma drift_iteration (i : Z) (a b : R) :
  getitem Examples.drift_run (i - 1) = Ok (Trans (Vec a b 0) (Rot 0 0 0)) ->
  Extractor.iteration Examples.map_level Examples.drift_run i = Ok (b, 4 / 2).
Proof.
  intros H. apply iteration_Ok. eexists. split; [exact H|].
  split; [|split].
  - simpl. intros Hv. injection Hv as Hv. lra.
  - symmetry. apply level_map_offset.
  - reflexivity.
Qed.

Lemma drift_collect :
  collect Examples.map_level Examples.drift_run 1 4 =
  Ok (Lists [1 / 2; 1; - 1] [4 / 2; 4 / 2; 4 / 2] [1; 2; 3]%Z).
Proof.
  apply for_each_Ok.
  exists [(1 / 2, 4 / 2); (1, 4 / 2); (- 1, 4 / 2)].
  split; [|reflexivity].
  repeat constructor.
  - apply (drift_iteration _ 0). reflexivity.
  - apply (drift_iteration _ 1). reflexivity.
  - apply (drift_iteration _ 2). reflexivity.
Qed.

End Drift.

(** * The claims *)

(** ** Signed lateral offset *)

(** C1. In a run that ends normally, the distance stored for every frame
    [i] is the signed lateral offset of the location recorded at [i - 1]
    against its nearest waypoint: with [v] the vector from the waypoint to
    the location, [dot = right·v], [scale = dot / |right|²], the magnitude
    is [|scale·right|], and it is negated exactly when the z-component of
    [forward × v] is negative. The value is therefore non-positive on the
    negative side of the cross product and non-negative elsewhere (the
    right-hand side of travel), and its absolute value is that of the
    component of [v] along the right vector. *)
Theorem C1_offset_is_signed_projection
    (get_waypoint : Location -> Waypoint) (tl : list Transform)
    (start end_ : Z) (ls : lists) :
  collect get_waypoint tl start end_ = Ok ls ->
  forall (n : nat) (i : Z), frames_list ls !! n = Some i ->
    exists (tr : Transform) (d : R),
      getitem tl (i - 1) = Ok tr /\
      distances_list ls !! n = Some d /\
      let wp := get_waypoint (location tr) in
      let right := get_right_vector wp in
      let v := sub (location tr) (location (transform wp)) in
      let dot := dot3 right v in
      let scale := dot / Spec.norm2 right in
      let magnitude := Spec.norm (rmul scale right) in
      let cross := Spec.cross_z (get_forward_vector wp) v in
      d = (if Rlt_dec cross 0 then - magnitude else magnitude) /\
      (cross < 0 -> d = - magnitude /\ d <= 0) /\
      (0 <= cross -> d = magnitude /\ 0 <= d) /\
      Rabs d = Rabs (Spec.component_along right v).
Proof.
  intros Hrun n i Hi.
  destruct (collect_Ok _ _ _ _ _ Hrun) as (_ & _ & _ & Hall).
  destruct (Hall n i Hi) as (d & w & Hit & Hd & _).
  apply iteration_Ok in Hit. destruct Hit as (tr & Htr & Hr & -> & _).
  exists tr, (Spec.signedLateralOffset (get_waypoint (location tr)) (location tr)).
  split; [exact Htr|]. split; [exact Hd|].
  cbv zeta.
  pose proof (signedLateralOffset_sign (get_waypoint (location tr)) (location tr))
    as [Hneg Hpos]. cbv zeta in Hneg, Hpos.
  split; [reflexivity|].
  split; [|split].
  - intros Hc. split; [|apply Hneg, Hc].
    unfold Spec.signedLateralOffset, Spec.projection_magnitude.
    destruct (Rlt_dec _ 0); [reflexivity|contradiction].
  - intros Hc. split; [|apply Hpos, Hc].
    unfold Spec.signedLateralOffset, Spec.projection_magnitude.
    destruct (Rlt_dec _ 0); [lra|reflexivity].
  - apply signedLateralOffset_abs, Hr.
Qed.

Lemma C1_witness :
  collect Examples.map_level Examples.straight_run 1 4 =
    Ok (Lists [1 / 2; 1 / 2; 1 / 2] [4 / 2; 4 / 2; 4 / 2] [1; 2; 3]%Z) /\
  exists (tr : Transform) (d : R),
    getitem Examples.straight_run (2 - 1) = Ok tr /\
    [1 / 2; 1 / 2; 1 / 2] !! 1%nat = Some d /\
    let wp := Examples.map_level (location tr) in
    let right := get_right_vector wp in
    let v := sub (location tr) (location (transform wp)) in
    let dot := dot3 right v in
    let scale := dot / Spec.norm2 right in
    let magnitude := Spec.norm (rmul scale right) in
    let cross := Spec.cross_z (get_forward_vector wp) v in
    d = (if Rlt_dec cross 0 then - magnitude else magnitude) /\
    (cross < 0 -> d = - magnitude /\ d <= 0) /\
    (0 <= cross -> d = magnitude /\ 0 <= d) /\
    Rabs d = Rabs (Spec.component_along right v).
Proof.
  split; [exact straight_collect|].
  exact (C1_offset_is_signed_projection Examples.map_level
           Examples.straight_run 1 4 _ straight_collect 1%nat 2%Z eq_refl).
Defined.

(** ** Frames and array indexes *)

(** C2. Over an alive range [start, end) of 1-based frame numbers the loop
    visits exactly the frames [start .. end - 1], and for frame [N] it
    reads position [N - 1] of the recorded transform list:
    - when every frame [N] of the range has a transform at position
      [N - 1] whose waypoint has a non-zero right vector, the run ends
      normally;
    - in a run that ends normally the frames are [start .. end - 1] in
      order and the sample of frame [N] is computed from the transform at
      position [N - 1];
    - a frame [N] whose position [N - 1] lies beyond the list makes the run
      raise, and it is [IndexError] that is raised when the frames before
      [N] are in order. *)
Theorem C2_frame_N_reads_index_N_minus_1
    (get_waypoint : Location -> Waypoint) (tl : list Transform)
    (start end_ : Z) :
  (1 <= start)%Z ->
  (forall N, In N (range start end_) <-> (start <= N <= end_ - 1)%Z) /\
  ((forall N, (start <= N <= end_ - 1)%Z ->
      exists tr, nth_error tl (Z.to_nat (N - 1)) = Some tr /\
        get_right_vector (get_waypoint (location tr)) <> Vec 0 0 0) ->
   exists ls, collect get_waypoint tl start end_ = Ok ls) /\
  (forall ls, collect get_waypoint tl start end_ = Ok ls ->
     frames_list ls = range start end_ /\
     forall N, (start <= N <= end_ - 1)%Z ->
       exists tr, nth_error tl (Z.to_nat (N - 1)) = Some tr /\
         Extractor.samples_of (frames_list ls) (distances_list ls)
           (lane_width_list ls) !! Z.to_nat (N - start)
         = Some (Extractor.Sample N
                   (Spec.signedLateralOffset (get_waypoint (location tr))
                      (location tr))
                   (lane_width (get_waypoint (location tr)) / 2))) /\
  (forall N, (start <= N <= end_ - 1)%Z ->
     nth_error tl (Z.to_nat (N - 1)) = None ->
     raises (collect get_waypoint tl start end_) /\
     ((forall M, (start <= M < N)%Z ->
         exists tr, nth_error tl (Z.to_nat (M - 1)) = Some tr /\
           get_right_vector (get_waypoint (location tr)) <> Vec 0 0 0) ->
      collect get_waypoint tl start end_ = Raise IndexError)).
Proof.
  intros Hstart.
  assert (Hget : forall N tr, (start <= N)%Z ->
            nth_error tl (Z.to_nat (N - 1)) = Some tr ->
            getitem tl (N - 1) = Ok tr).
  { intros N tr HN Htr. rewrite getitem_nonneg by lia. rewrite Htr.
    reflexivity. }
  split; [|split; [|split]].
  - intros N. rewrite range_In. lia.
  - intros Hall. apply collect_returns. intros i Hi.
    destruct (Hall i) as (tr & Htr & Hr); [lia|].
    exists tr. split; [apply Hget; [lia|exact Htr]|exact Hr].
  - intros ls Hrun.
    destruct (collect_Ok _ _ _ _ _ Hrun) as (Hfr & _ & _ & Hall).
    split; [exact Hfr|]. intros N HN.
    assert (Hlk : frames_list ls !! Z.to_nat (N - start) = Some N).
    { rewrite Hfr, range_lookup by lia. f_equal. lia. }
    destruct (Hall _ _ Hlk) as (d & w & Hit & Hd & Hw).
    assert (HN1 : (1 <= N)%Z) by lia.
    pose proof (iteration_sample _ _ N d w HN1 Hit) as Hs.
    unfold Extractor.sample in Hs.
    destruct (nth_error tl (Z.to_nat (N - 1))) as [tr|]; [|discriminate Hs].
    cbn in Hs. injection Hs as Hd' Hw'.
    exists tr. split; [reflexivity|].
    rewrite Hd', Hw'. apply samples_of_lookup; assumption.
  - intros N HN Hnone.
    assert (Hraise : Extractor.iteration get_waypoint tl N = Raise IndexError)
      by (apply iteration_out_of_range; [lia|exact Hnone]).
    split.
    + unfold collect. apply (for_each_raises _ _ _ _ N).
      * apply range_In. lia.
      * exists IndexError. exact Hraise.
    + intros Hbefore. unfold collect.
      apply (for_each_first_raise get_waypoint tl end_ N IndexError
               ltac:(lia) Hraise (Z.to_nat (N - start)) start empty_lists
               eq_refl ltac:(lia)).
      intros i Hi. destruct (Hbefore i Hi) as (tr & Htr & Hr).
      eexists (_, _). apply iteration_Ok. exists tr.
      repeat split; [apply Hget; [lia|exact Htr]|exact Hr].
Qed.

Lemma C2_witness :
  (1 <= 1)%Z /\
  collect Examples.map_level Examples.drift_run 1 4 =
    Ok (Lists [1 / 2; 1; - 1] [4 / 2; 4 / 2; 4 / 2] [1; 2; 3]%Z) /\
  nth_error Examples.drift_run 1 = Some (Trans (Vec 1 1 0) (Rot 0 0 0)) /\
  Spec.signedLateralOffset (Examples.map_level (Vec 1 1 0)) (Vec 1 1 0) = 1 /\
  (forall N, (1 <= N <= 4 - 1)%Z ->
     exists tr, nth_error Examples.drift_run (Z.to_nat (N - 1)) = Some tr /\
       Extractor.samples_of [1; 2; 3]%Z [1 / 2; 1; - 1] [4 / 2; 4 / 2; 4 / 2]
         !! Z.to_nat (N - 1)
       = Some (Extractor.Sample N
                 (Spec.signedLateralOffset (Examples.map_level (location tr))
                    (location tr))
                 (lane_width (Examples.map_level (location tr)) / 2))).
Proof.
  split; [lia|]. split; [exact drift_collect|].
  split; [reflexivity|]. split; [exact (level_map_offset 1 1 0)|].
  exact (proj2 (proj1 (proj2 (proj2 (C2_frame_N_reads_index_N_minus_1
                                       Examples.map_level Examples.drift_run
                                       1 4 (Z.le_refl 1))))
                  _ drift_collect)).
Defined.

(** ** Shape of the emitted lists *)

(** C10. When the alive range is [start, end) with [start <= end] and the
    run ends normally, the written document holds the key [frames] with
    exactly [start, start+1, ..., end-1] and the key [distance] with a list
    of the same length, [end - start]. *)
Theorem C10_frames_and_distance_shape
    (get_waypoint : Location -> Waypoint) (metrics_log : MetricsLog)
    (files files' : gmap string json_dict) (start end_ : Z) :
  get_actor_alive_frames metrics_log (get_ego_vehicle_id metrics_log)
    = (Some start, Some end_) ->
  (start <= end_)%Z ->
  _create_metrics get_waypoint metrics_log files = (Ok tt, files') ->
  exists (frames : list Z) (distances : list R),
    files' !! output_path =
      Some [("frames"%string, map JInt frames);
            ("distance"%string, map JFloat distances)] /\
    Z.of_nat (length frames) = (end_ - start)%Z /\
    length distances = length frames /\
    frames = range start end_ /\
    (forall n : nat, (n < length frames)%nat ->
       frames !! n = Some (start + Z.of_nat n)%Z) /\
    (forall (n m : nat) (a b : Z), (n < m)%nat ->
       frames !! n = Some a -> frames !! m = Some b -> (a < b)%Z).
Proof.
  intros Hb Hle Hrun.
  rewrite (create_metrics_int_bounds _ _ _ _ _ Hb) in Hrun.
  destruct (collect _ _ _ _) as [ls|e] eqn:Hc; [|discriminate Hrun].
  injection Hrun as <-.
  destruct (collect_Ok _ _ _ _ _ Hc) as (Hfr & Hd & _ & _).
  exists (frames_list ls), (distances_list ls).
  assert (Hlen : length (frames_list ls) = Z.to_nat (end_ - start))
    by (rewrite Hfr; apply range_length).
  split; [apply lookup_insert_eq|].
  split; [lia|]. split; [lia|]. split; [exact Hfr|]. split.
  - intros n Hn. rewrite Hfr. apply range_lookup. lia.
  - intros n m a b Hnm Ha Hm.
    assert (Hm' : (m < length (frames_list ls))%nat)
      by (apply lookup_lt_is_Some; eauto).
    rewrite Hfr in Ha, Hm.
    rewrite range_lookup in Ha by lia. rewrite range_lookup in Hm by lia.
    injection Ha as <-. injection Hm as <-. lia.
Qed.

Lemma C10_witness :
  get_actor_alive_frames Examples.straight_log
    (get_ego_vehicle_id Examples.straight_log) = (Some 1%Z, Some 4%Z) /\
  (1 <= 4)%Z /\
  _create_metrics Examples.map_level Examples.straight_log ∅ =
    (Ok tt, <[output_path :=
               Extractor.document [1; 2; 3]%Z [1 / 2; 1 / 2; 1 / 2]]> ∅) /\
  exists (frames : list Z) (distances : list R),
    (<[output_path :=
        Extractor.document [1; 2; 3]%Z [1 / 2; 1 / 2; 1 / 2]]>
       (∅ : gmap string json_dict)) !! output_path =
      Some [("frames"%string, map JInt frames);
            ("distance"%string, map JFloat distances)] /\
    Z.of_nat (length frames) = (4 - 1)%Z /\
    length distances = length frames /\
    frames = range 1 4 /\
    (forall n : nat, (n < length frames)%nat ->
       frames !! n = Some (1 + Z.of_nat n)%Z) /\
    (forall (n m : nat) (a b : Z), (n < m)%nat ->
       frames !! n = Some a -> frames !! m = Some b -> (a < b)%Z).
Proof.
  split; [reflexivity|]. split; [lia|].
  split; [apply straight_create_metrics|].
  apply (C10_frames_and_distance_shape Examples.map_level
           Examples.straight_log ∅ _ 1 4).
  - reflexivity.
  - lia.
  - apply straight_create_metrics.
Defined.

(** ** Samples and the persisted file *)

Lemma samples_of_lookup_inv (fs : list Z) : forall (ds ws : list R) (n : nat)
    (s : Extractor.MetricSample),
  Extractor.samples_of fs ds ws !! n = Some s ->
  fs !! n = Some (Extractor.frame s) /\
  ds !! n = Some (Extractor.offset s) /\
  ws !! n = Some (Extractor.laneHalfWidth s).
Proof.
  induction fs as [|f0 fs IH]; intros ds ws n s H.
  - destruct n; discriminate H.
  - destruct ds as [|d0 ds]; [destruct n; discriminate H|].
    destruct ws as [|w0 ws]; [destruct n; discriminate H|].
    destruct n as [|n]; simpl in H.
    + injection H as <-. repeat split.
    + apply IH in H. exact H.
Qed.

Lemma samples_of_frames (fs : list Z) : forall (ds ws : list R),
  length ds = length fs -> length ws = length fs ->
  map Extractor.frame (Extractor.samples_of fs ds ws) = fs /\
  map Extractor.offset (Extractor.samples_of fs ds ws) = ds.
Proof.
  induction fs as [|f0 fs IH]; intros ds ws Hd Hw.
  - destruct ds; [split; reflexivity|discriminate Hd].
  - destruct ds as [|d0 ds]; [discriminate Hd|].
    destruct ws as [|w0 ws]; [discriminate Hw|].
    simpl in *. destruct (IH ds ws) as [-> ->]; [congruence..|].
    split; reflexivity.
Qed.

(** C7. With integer alive bounds, a run that ends normally has collected
    one [MetricSample] per frame of the alive range, in frame order: its
    frame index, the signed lateral offset of the recorded location against
    its nearest waypoint, and half that waypoint's lane width. The run then
    binds the output path to one document with the keys [frames] and
    [distance] (the frame indexes and the offsets of the samples, in
    order), whatever the path held before, and leaves every other file as
    it was. A run that raises has written nothing. *)
Theorem C7_samples_and_persisted_file
    (get_waypoint : Location -> Waypoint) (metrics_log : MetricsLog)
    (files : gmap string json_dict) (start end_ : Z) :
  get_actor_alive_frames metrics_log (get_ego_vehicle_id metrics_log)
    = (Some start, Some end_) ->
  let tl := get_all_actor_states metrics_log (get_ego_vehicle_id metrics_log)
              "transform" (Some start) (Some end_) in
  match _create_metrics get_waypoint metrics_log files with
  | (Raise e, files') => files' = files
  | (Ok _, files') =>
      exists ls, collect get_waypoint tl start end_ = Ok ls /\
        let samples := Extractor.samples_of (frames_list ls)
                         (distances_list ls) (lane_width_list ls) in
        length samples = Z.to_nat (end_ - start) /\
        (forall (n : nat) (s : Extractor.MetricSample),
           samples !! n = Some s ->
           Extractor.frame s = (start + Z.of_nat n)%Z /\
           exists tr, getitem tl (Extractor.frame s - 1) = Ok tr /\
             Extractor.offset s =
               Spec.signedLateralOffset (get_waypoint (location tr))
                 (location tr) /\
             Extractor.laneHalfWidth s =
               lane_width (get_waypoint (location tr)) / 2) /\
        files' = <[output_path :=
                    [("frames"%string, map JInt (map Extractor.frame samples));
                     ("distance"%string,
                      map JFloat (map Extractor.offset samples))]]> files /\
        (exists doc, files' !! output_path = Some doc /\
           map fst doc = ["frames"%string; "distance"%string]) /\
        (forall path, path <> output_path -> files' !! path = files !! path)
  end.
Proof.
  intros Hb tl.
  rewrite (create_metrics_int_bounds _ _ _ _ _ Hb). fold tl.
  destruct (collect get_waypoint tl start end_) as [ls|e] eqn:Hc;
    [|reflexivity].
  exists ls. split; [reflexivity|]. cbv zeta.
  destruct (collect_Ok _ _ _ _ _ Hc) as (Hfr & Hd & Hw & Hall).
  assert (Hlen : length (frames_list ls) = Z.to_nat (end_ - start))
    by (rewrite Hfr; apply range_length).
  destruct (samples_of_frames (frames_list ls) (distances_list ls)
              (lane_width_list ls)) as [Hmf Hmo]; [congruence..|].
  split; [|split; [|split; [|split]]].
  - rewrite samples_of_length; congruence.
  - intros n s Hs. apply samples_of_lookup_inv in Hs.
    destruct Hs as (Hf & Hds & Hws).
    assert (Hn : (n < Z.to_nat (end_ - start))%nat).
    { rewrite <- Hlen. apply lookup_lt_is_Some. eauto. }
    split.
    + rewrite Hfr, range_lookup in Hf by exact Hn. congruence.
    + destruct (Hall _ _ Hf) as (d & w & Hit & Hd' & Hw').
      apply iteration_Ok in Hit. destruct Hit as (tr & Htr & _ & -> & ->).
      exists tr. split; [exact Htr|]. split; congruence.
  - rewrite Hmf, Hmo. reflexivity.
  - eexists. split; [apply lookup_insert_eq|reflexivity].
  - intros path Hp. apply lookup_insert_ne. congruence.
Qed.

Lemma C7_witness :
  get_actor_alive_frames Examples.straight_log
    (get_ego_vehicle_id Examples.straight_log) = (Some 1%Z, Some 4%Z) /\
  fst (_create_metrics Examples.map_level Examples.straight_log ∅) = Ok tt /\
  match _create_metrics Examples.map_level Examples.straight_log ∅ with
  | (Raise e, files') => files' = ∅
  | (Ok _, files') =>
      exists ls, collect Examples.map_level Examples.straight_run 1 4 = Ok ls /\
        let samples := Extractor.samples_of (frames_list ls)
                         (distances_list ls) (lane_width_list ls) in
        length samples = Z.to_nat (4 - 1) /\
        (forall (n : nat) (s : Extractor.MetricSample),
           samples !! n = Some s ->
           Extractor.frame s = (1 + Z.of_nat n)%Z /\
           exists tr, getitem Examples.straight_run (Extractor.frame s - 1)
                      = Ok tr /\
             Extractor.offset s =
               Spec.signedLateralOffset (Examples.map_level (location tr))
                 (location tr) /\
             Extractor.laneHalfWidth s =
               lane_width (Examples.map_level (location tr)) / 2) /\
        files' = <[output_path :=
                    [("frames"%string, map JInt (map Extractor.frame samples));
                     ("distance"%string,
                      map JFloat (map Extractor.offset samples))]]> ∅ /\
        (exists doc, files' !! output_path = Some doc /\
           map fst doc = ["frames"%string; "distance"%string]) /\
        (forall path, path <> output_path ->
           files' !! path = (∅ : gmap string json_dict) !! path)
  end.
Proof.
  split; [reflexivity|].
  split; [rewrite straight_create_metrics; reflexivity|].
  apply (C7_samples_and_persisted_file Examples.map_level
           Examples.straight_log ∅ 1 4).
  reflexivity.
Defined.

(** ** Degenerate right vector *)

Lemma tiny_offset :
  Spec.signedLateralOffset Examples.wp_tiny (Vec 0 (1 / 2) 0) = 1 / 2.
Proof.
  unfold Spec.signedLateralOffset, Examples.wp_tiny. simpl.
  rewrite projection_magnitude_abs
    by (unfold Spec.norm2, dot3; simpl; lra).
  unfold Spec.component_along, Spec.norm, Spec.norm2, Spec.cross_z, dot3, sub.
  simpl.
  replace (0 * 0 + 1 / 1000000000 * (1 / 1000000000) + 0 * 0)
    with ((1 / 1000000000) * (1 / 1000000000)) by ring.
  rewrite sqrt_square by lra.
  destruct (Rlt_dec _ 0) as [H|_]; [lra|].
  replace ((0 * (0 - 0) + 1 / 1000000000 * (1 / 2 - 0) + 0 * (0 - 0))
           / (1 / 1000000000)) with (1 / 2) by field.
  apply Rabs_pos_eq. lra.
Qed.

(** C4, as the specification states it, fails: on the waypoint whose right
    vector is zero the square root returns 0, the division is reached with
    the divisor 0 and it is the division that raises; on a right vector of
    length 10^-9 nothing is rejected and a value comes back. *)
Lemma C4_counterexample :
  math_sqrt (Spec.norm2 (get_right_vector Examples.wp_degenerate)) = Ok 0 /\
  truediv (dot3 (get_right_vector Examples.wp_degenerate) (Vec 0 (1 / 2) 0))
    (0 * 0) = Raise ZeroDivisionError /\
  project_dist Examples.wp_degenerate (Vec 0 (1 / 2) 0)
    = Raise ZeroDivisionError /\
  project_dist Examples.wp_tiny (Vec 0 (1 / 2) 0) = Ok (1 / 2).
Proof.
  split; [|split; [|split]].
  - unfold math_sqrt, Spec.norm2, dot3. simpl.
    destruct (Rlt_dec _ 0) as [H|_]; [lra|].
    f_equal. replace (0 * 0 + 0 * 0 + 0 * 0) with 0 by ring. apply sqrt_0.
  - unfold truediv. destruct (Req_dec_T (0 * 0) 0) as [_|H]; [reflexivity|lra].
  - apply project_dist_zero_right. reflexivity.
  - rewrite project_dist_ok.
    + f_equal. apply tiny_offset.
    + simpl. intros H. injection H as H. lra.
Qed.

(** C4, amended. On a waypoint whose right vector is the zero vector, and
    for every location, there is no check of the geometry: [math.sqrt]
    returns 0, the division [dot / (perp_wp * perp_wp)] is reached with the
    divisor 0, and the computation raises there, with [ZeroDivisionError]
    and with nothing else; no value comes back. Right vectors of non-zero
    length are left out of this statement. *)
Theorem C4_zero_right_vector_raises_ZeroDivisionError
    (wp : Waypoint) (loc : Location) :
  get_right_vector wp = Vec 0 0 0 ->
  let right := get_right_vector wp in
  let v := sub loc (location (transform wp)) in
  math_sqrt (x right * x right + y right * y right + z right * z right)
    = Ok 0 /\
  truediv (dot3 right v) (0 * 0) = Raise ZeroDivisionError /\
  project_dist wp loc = Raise ZeroDivisionError /\
  ~ returns (project_dist wp loc) /\
  (forall e, project_dist wp loc = Raise e -> e = ZeroDivisionError).
Proof.
  intros Hr right v.
  assert (Hraise : project_dist wp loc = Raise ZeroDivisionError)
    by (apply project_dist_zero_right, Hr).
  split; [|split; [|split; [|split]]].
  - unfold right. rewrite Hr. unfold math_sqrt. simpl.
    destruct (Rlt_dec _ 0) as [H|_]; [lra|].
    f_equal. replace (0 * 0 + 0 * 0 + 0 * 0) with 0 by ring. apply sqrt_0.
  - unfold truediv.
    destruct (Req_dec_T (0 * 0) 0) as [_|H]; [reflexivity|lra].
  - exact Hraise.
  - rewrite Hraise. intros (d & Hd). discriminate Hd.
  - rewrite Hraise. intros e He. injection He as <-. reflexivity.
Qed.

Lemma C4_witness :
  get_right_vector Examples.wp_degenerate = Vec 0 0 0 /\
  project_dist Examples.wp_degenerate (Vec 0 (1 / 2) 0)
    = Raise ZeroDivisionError /\
  ~ returns (project_dist Examples.wp_degenerate (Vec 0 (1 / 2) 0)).
Proof.
  pose proof (C4_zero_right_vector_raises_ZeroDivisionError
                Examples.wp_degenerate (Vec 0 (1 / 2) 0) eq_refl) as H.
  cbv zeta in H. destruct H as (_ & _ & Hraise & Hnot & _).
  split; [reflexivity|]. split; [exact Hraise|exact Hnot].
Defined.

(** ** Linearity and sign *)

Lemma banked_right_nonzero : get_right_vector Examples.wp_banked <> Vec 0 0 0.
Proof. simpl. intros H. injection H as H _. lra. Qed.

Lemma banked_norm : Spec.norm (get_right_vector Examples.wp_banked) = 1.
Proof.
  unfold Spec.norm, Spec.norm2, dot3. simpl.
  replace (0 * 0 + 12 / 13 * (12 / 13) + - (5 / 13) * - (5 / 13)) with 1
    by field.
  apply sqrt_1.
Qed.

Lemma banked_component (a b c : R) :
  Spec.component_along (get_right_vector Examples.wp_banked)
    (sub (Vec a b c) (location (transform Examples.wp_banked)))
  = 12 / 13 * b - 5 / 13 * c.
Proof.
  unfold Spec.component_along. rewrite banked_norm.
  unfold dot3, sub. simpl. field.
Qed.

(** On the banked lane the offset of a location is the absolute value of
    its component along the right vector, signed by its side of the axis. *)
Lemma banked_offset (a b c : R) :
  project_dist Examples.wp_banked (Vec a b c) =
  Ok (if Rlt_dec b 0 then - Rabs (12 / 13 * b - 5 / 13 * c)
      else Rabs (12 / 13 * b - 5 / 13 * c)).
Proof.
  rewrite (project_dist_ok _ _ banked_right_nonzero). f_equal.
  unfold Spec.signedLateralOffset.
  rewrite projection_magnitude_abs
    by (intros Hz; apply banked_right_nonzero, norm2_zero, Hz).
  rewrite banked_component.
  replace (Spec.cross_z (get_forward_vector Examples.wp_banked)
             (sub (Vec a b c) (location (transform Examples.wp_banked))))
    with b by (unfold Spec.cross_z, sub; simpl; ring).
  reflexivity.
Qed.

(** C6, as the specification states it, fails on a banked lane: no linear
    (nor affine) function of the component along the right vector gives the
    offset. At the waypoint itself component and offset are 0; one metre to
    the right both are 12/13; four metres above that point the component is
    -8/13 and the offset 8/13. *)
Lemma C6_counterexample :
  get_right_vector Examples.wp_banked <> Vec 0 0 0 /\
  project_dist Examples.wp_banked (Vec 0 0 0) = Ok 0 /\
  project_dist Examples.wp_banked (Vec 0 1 0) = Ok (12 / 13) /\
  project_dist Examples.wp_banked (Vec 0 1 4) = Ok (8 / 13) /\
  ~ exists a b : R, forall (loc : Location) (d : R),
      project_dist Examples.wp_banked loc = Ok d ->
      d = a * Spec.component_along (get_right_vector Examples.wp_banked)
                (sub loc (location (transform Examples.wp_banked))) + b.
Proof.
  assert (H0 : project_dist Examples.wp_banked (Vec 0 0 0) = Ok 0).
  { rewrite banked_offset. destruct (Rlt_dec 0 0) as [H|_]; [lra|].
    f_equal. replace (12 / 13 * 0 - 5 / 13 * 0) with 0 by field.
    apply Rabs_R0. }
  assert (H1 : project_dist Examples.wp_banked (Vec 0 1 0) = Ok (12 / 13)).
  { rewrite banked_offset. destruct (Rlt_dec 1 0) as [H|_]; [lra|].
    f_equal. replace (12 / 13 * 1 - 5 / 13 * 0) with (12 / 13) by field.
    apply Rabs_pos_eq. lra. }
  assert (H2 : project_dist Examples.wp_banked (Vec 0 1 4) = Ok (8 / 13)).
  { rewrite banked_offset. destruct (Rlt_dec 1 0) as [H|_]; [lra|].
    f_equal. replace (12 / 13 * 1 - 5 / 13 * 4) with (- (8 / 13)) by field.
    rewrite Rabs_Ropp. apply Rabs_pos_eq. lra. }
  split; [exact banked_right_nonzero|].
  split; [exact H0|]. split; [exact H1|]. split; [exact H2|].
  intros (a & b & Hlin).
  pose proof (Hlin _ _ H0) as E0. pose proof (Hlin _ _ H1) as E1.
  pose proof (Hlin _ _ H2) as E2.
  rewrite banked_component in E0, E1, E2. lra.
Qed.

Lemma right_of_forward_dot (wp : Waypoint) (v : Vector3D) (s : R) :
  get_right_vector wp =
    Vec (- (s * y (get_forward_vector wp))) (s * x (get_forward_vector wp)) 0 ->
  dot3 (get_right_vector wp) v = s * Spec.cross_z (get_forward_vector wp) v.
Proof.
  intros ->. unfold dot3, Spec.cross_z. simpl. ring.
Qed.

(** C6, amended. On a waypoint whose right vector is non-zero and a positive
    multiple of the horizontal normal [(-fy, fx, 0)] of its forward vector,
    the offset of every location is the component of the offset vector along
    the right vector, so it is linear in it with coefficient 1; and it is
    negative exactly when the z-component of [forward × v] is negative,
    positive exactly when that component is positive. *)
Theorem C6_offset_is_component_along_right
    (wp : Waypoint) (loc : Location) :
  Spec.right_of_forward wp ->
  get_right_vector wp <> Vec 0 0 0 ->
  let v := sub loc (location (transform wp)) in
  let c := Spec.component_along (get_right_vector wp) v in
  project_dist wp loc = Ok c /\
  (c < 0 <-> Spec.cross_z (get_forward_vector wp) v < 0) /\
  (0 < c <-> 0 < Spec.cross_z (get_forward_vector wp) v).
Proof.
  intros (s & Hs & Hright) Hnz v c.
  assert (Hn : Spec.norm2 (get_right_vector wp) <> 0)
    by (intros Hz; apply Hnz, norm2_zero, Hz).
  pose proof (norm_pos _ Hn) as Hpos.
  pose proof (right_of_forward_dot wp v s Hright) as Hdot.
  set (cr := Spec.cross_z (get_forward_vector wp) v) in *.
  assert (Hc : c = s * cr / Spec.norm (get_right_vector wp)).
  { unfold c, Spec.component_along. rewrite Hdot. reflexivity. }
  assert (Hfac : 0 < s / Spec.norm (get_right_vector wp))
    by (apply Rdiv_lt_0_compat; assumption).
  assert (Hc' : c = s / Spec.norm (get_right_vector wp) * cr)
    by (rewrite Hc; field; lra).
  assert (Hneg : c < 0 <-> cr < 0) by (rewrite Hc'; split; intros; nra).
  assert (Hgt : 0 < c <-> 0 < cr) by (rewrite Hc'; split; intros; nra).
  split; [|split; assumption].
  rewrite (project_dist_ok _ _ Hnz). f_equal.
  unfold Spec.signedLateralOffset. fold v. fold cr.
  rewrite (projection_magnitude_abs _ _ Hn). fold c.
  destruct (Rlt_dec cr 0) as [Hlt|Hge].
  - rewrite Rabs_left by (apply Hneg, Hlt). ring.
  - apply Rabs_pos_eq.
    destruct (Rle_lt_dec 0 c) as [H|H]; [exact H|].
    exfalso. apply Hge, Hneg, H.
Qed.

Lemma C6_witness :
  Spec.right_of_forward Examples.wp_level /\
  get_right_vector Examples.wp_level <> Vec 0 0 0 /\
  let v := sub (Vec 3 (1 / 2) 0) (location (transform Examples.wp_level)) in
  let c := Spec.component_along (get_right_vector Examples.wp_level) v in
  project_dist Examples.wp_level (Vec 3 (1 / 2) 0) = Ok c /\
  (c < 0 <-> Spec.cross_z (get_forward_vector Examples.wp_level) v < 0) /\
  (0 < c <-> 0 < Spec.cross_z (get_forward_vector Examples.wp_level) v).
Proof.
  assert (Hrf : Spec.right_of_forward Examples.wp_level).
  { exists 1. split; [lra|]. simpl. f_equal; ring. }
  assert (Hnz : get_right_vector Examples.wp_level <> Vec 0 0 0).
  { simpl. intros H. injection H as H. lra. }
  split; [exact Hrf|]. split; [exact Hnz|].
  exact (C6_offset_is_component_along_right Examples.wp_level
           (Vec 3 (1 / 2) 0) Hrf Hnz).
Defined.

(** ** Spawn placement *)

Import ObjectCrashVehicle.

Lemma radians_plus (a b : R) :
  math_radians (a + b) = math_radians a + math_radians b.
Proof. unfold math_radians. field. Qed.

Lemma radians_90 : math_radians 90 = PI / 2.
Proof. unfold math_radians. field. Qed.

Lemma radians_0 : math_radians 0 = 0.
Proof. unfold math_radians. field. Qed.

Lemma cos_quarter (a : R) : cos (a + PI / 2) = - sin a.
Proof. rewrite cos_plus, cos_PI2, sin_PI2. ring. Qed.

Lemma sin_quarter (a : R) : sin (a + PI / 2) = cos a.
Proof. rewrite sin_plus, cos_PI2, sin_PI2. ring. Qed.

Lemma sin_cos_1 (a : R) : sin a * sin a + cos a * cos a = 1.
Proof. pose proof (sin2_cos2 a) as H. unfold Rsqr in H. exact H. Qed.

(** The code's placement is the specified pose, for any [offset] dict. *)
Lemma spawn_transform_pose (offset : offset_dict) (lane_width : R)
    (location : Location) (waypoint : Waypoint) :
  spawn_transform offset lane_width location waypoint =
  Spec.laneOffsetPose location (yaw (rotation (transform waypoint)))
    lane_width (k offset) (orientation offset) (position offset) (dz offset).
Proof.
  unfold spawn_transform, Spec.laneOffsetPose, Spec.rotated_heading.
  rewrite radians_plus, cos_plus, sin_plus.
  unfold add, rmul. simpl. f_equal. f_equal; ring.
Qed.

(** A quarter turn from the heading [(cos a, sin a)] is [(- sin a, cos a)],
    perpendicular to the heading and of unit length. *)
Lemma rotated_heading_90 (yaw_deg : R) :
  Spec.rotated_heading yaw_deg 90 =
  Vec (- sin (math_radians yaw_deg)) (cos (math_radians yaw_deg)) 0.
Proof.
  unfold Spec.rotated_heading. rewrite radians_90, cos_PI2, sin_PI2.
  simpl. f_equal; ring.
Qed.

(** C5. Both crossing scenarios place the cyclist at the specified pose:
    the location reached by the lane walk, displaced by [k] times the ego's
    lane width ([k] = 0.2 for the stationary, 1.1 for the dynamic scenario)
    along the lane heading turned by 90 degrees, raised by 0.2, with yaw
    the lane heading plus 270 degrees and no pitch or roll. The displacement
    is horizontal, perpendicular to the heading and of length
    [|k * lane_width|]. *)
Theorem C5_spawn_placement
    (lane_width : R) (location : Location) (waypoint : Waypoint) :
  let heading := yaw (rotation (transform waypoint)) in
  let pose (k : R) :=
    Trans (Vec (x location + k * lane_width * cos (math_radians (heading + 90)))
               (y location + k * lane_width * sin (math_radians (heading + 90)))
               (z location + 2 / 10))
          (Rot 0 (heading + 270) 0) in
  let side := Vec (- sin (math_radians heading)) (cos (math_radians heading)) 0 in
  let forward := Vec (cos (math_radians heading)) (sin (math_radians heading)) 0 in
  (spawn_transform stationary_offset lane_width location waypoint
     = pose (2 / 10) /\
   spawn_transform dynamic_offset lane_width location waypoint
     = pose (11 / 10)) /\
  (spawn_transform stationary_offset lane_width location waypoint
     = Spec.laneOffsetPose location heading lane_width (2 / 10) 270 90 (2 / 10) /\
   spawn_transform dynamic_offset lane_width location waypoint
     = Spec.laneOffsetPose location heading lane_width (11 / 10) 270 90 (2 / 10)) /\
  (forall k : R,
     Carla.location (pose k) =
       add (add location (rmul (k * lane_width) side)) (Vec 0 0 (2 / 10)) /\
     dot3 side forward = 0 /\
     Spec.norm (rmul (k * lane_width) side) = Rabs (k * lane_width)).
Proof.
  intros heading pose side forward.
  assert (Hpose : forall o,
    position o = 90 -> orientation o = 270 -> dz o = 2 / 10 ->
    spawn_transform o lane_width location waypoint = pose (k o)).
  { intros o Hp Ho Hz. unfold spawn_transform, pose, heading.
    rewrite Hp, Ho, Hz. unfold add. simpl. f_equal. f_equal; ring. }
  split; [|split].
  - split; apply Hpose; reflexivity.
  - split; apply spawn_transform_pose.
  - intros k0. split; [|split].
    + unfold pose, side, add, rmul. simpl.
      rewrite radians_plus, radians_90, cos_quarter, sin_quarter.
      f_equal; ring.
    + unfold dot3, side, forward. simpl. ring.
    + rewrite norm_rmul.
      replace (Spec.norm side) with 1; [ring|].
      unfold Spec.norm, Spec.norm2, dot3, side. simpl.
      replace (_ + _ + 0 * 0) with 1; [symmetry; apply sqrt_1|].
      pose proof (sin_cos_1 (math_radians heading)). lra.
Qed.

(** ** Round trip: placement, then offset *)

Lemma spawn_location_quarter (offset : offset_dict) (w : R) (wp : Waypoint) :
  position offset = 90 ->
  let psi := math_radians (yaw (rotation (transform wp))) in
  sub (location (spawn_transform offset w (location (transform wp)) wp))
      (location (transform wp))
  = Vec (- (k offset * w * sin psi)) (k offset * w * cos psi) (dz offset).
Proof.
  intros Hp psi. unfold spawn_transform, sub, add. simpl.
  rewrite Hp, radians_plus, radians_90, cos_quarter, sin_quarter.
  fold psi. f_equal; ring.
Qed.

(** C3, as the specification states it, fails on a banked lane: the dynamic
    scenario's cyclist ([k] = 1.1) placed on a lane 4 m wide is measured at
    259/65 (about 3.98) from the centre, not at 1.1 * 4 = 4.4. *)
Lemma C3_counterexample :
  get_right_vector Examples.wp_banked <> Vec 0 0 0 /\
  project_dist Examples.wp_banked
    (location (spawn_transform dynamic_offset 4
                 (location (transform Examples.wp_banked)) Examples.wp_banked))
  = Ok (259 / 65) /\
  Rabs (Rabs (259 / 65) - Rabs (k dynamic_offset * 4)) > 4 / 10.
Proof.
  split; [exact banked_right_nonzero|]. split.
  - assert (Hloc : location (spawn_transform dynamic_offset 4
                     (location (transform Examples.wp_banked)) Examples.wp_banked)
                   = Vec 0 (44 / 10) (2 / 10)).
    { unfold spawn_transform, add. simpl.
      replace (math_radians (0 + 90)) with (PI / 2)
        by (unfold math_radians; field).
      rewrite cos_PI2, sin_PI2. f_equal; field. }
    rewrite Hloc, banked_offset.
    destruct (Rlt_dec (44 / 10) 0) as [H|_]; [lra|].
    f_equal.
    replace (12 / 13 * (44 / 10) - 5 / 13 * (2 / 10)) with (259 / 65) by field.
    apply Rabs_pos_eq. lra.
  - simpl. rewrite (Rabs_pos_eq (259 / 65)) by lra.
    rewrite (Rabs_pos_eq (11 / 10 * 4)) by lra.
    rewrite Rabs_left; lra.
Qed.

(** C3, amended. On a waypoint with level axes (right vector horizontal, of
    unit length, a quarter turn from the heading; forward vector along the
    heading), placing an actor with lateral fraction [k] and position offset
    90 degrees on a lane of width [w], whatever the height and orientation
    offsets, and measuring it against the same waypoint gives exactly
    [k * w]: the magnitude is [|k * w|], and for a positive width the sign is
    that of [k]. *)
Theorem C3_round_trip_on_level_axes
    (wp : Waypoint) (offset : offset_dict) (w : R) :
  Spec.level_axes wp ->
  position offset = 90 ->
  let placed :=
    location (spawn_transform offset w (location (transform wp)) wp) in
  project_dist wp placed = Ok (k offset * w) /\
  (0 < w -> (0 < k offset -> 0 < k offset * w) /\
            (k offset < 0 -> k offset * w < 0)).
Proof.
  intros (Hright & c & Hc & Hfx & Hfy) Hp placed.
  set (psi := math_radians (yaw (rotation (transform wp)))) in *.
  pose proof (sin_cos_1 psi) as Hunit.
  assert (Hv : sub placed (location (transform wp)) =
               Vec (- (k offset * w * sin psi)) (k offset * w * cos psi)
                   (dz offset))
    by (apply spawn_location_quarter, Hp).
  assert (Hn2 : Spec.norm2 (get_right_vector wp) = 1).
  { rewrite Hright. unfold Spec.norm2, dot3. simpl. lra. }
  assert (Hnz : get_right_vector wp <> Vec 0 0 0).
  { intros Hz. apply norm2_zero in Hz. lra. }
  split; [|intros Hw; split; intros Hk; nra].
  rewrite (project_dist_ok _ _ Hnz). f_equal.
  unfold Spec.signedLateralOffset.
  rewrite projection_magnitude_abs by lra.
  unfold Spec.component_along, Spec.norm. rewrite Hn2, sqrt_1.
  fold placed. rewrite Hv.
  assert (Hdot : dot3 (get_right_vector wp)
                   (Vec (- (k offset * w * sin psi)) (k offset * w * cos psi)
                      (dz offset)) = k offset * w).
  { rewrite Hright. unfold dot3. simpl.
    transitivity (k offset * w * (sin psi * sin psi + cos psi * cos psi));
      [ring|rewrite Hunit; ring]. }
  assert (Hcross : Spec.cross_z (get_forward_vector wp)
                     (Vec (- (k offset * w * sin psi))
                        (k offset * w * cos psi) (dz offset))
                   = c * (k offset * w)).
  { unfold Spec.cross_z. simpl. rewrite Hfx, Hfy.
    transitivity (c * (k offset * w)
                  * (sin psi * sin psi + cos psi * cos psi));
      [ring|rewrite Hunit; ring]. }
  rewrite Hdot, Hcross.
  replace (k offset * w / 1) with (k offset * w) by field.
  destruct (Rlt_dec (c * (k offset * w)) 0) as [Hlt|Hge].
  - rewrite Rabs_left by nra. ring.
  - apply Rabs_pos_eq. nra.
Qed.

Lemma level_axes_wp_level : Spec.level_axes Examples.wp_level.
Proof.
  unfold Spec.level_axes. simpl. rewrite radians_0, sin_0, cos_0. split.
  - f_equal. ring.
  - exists 1. split; [lra|]. split; ring.
Qed.

Lemma C3_witness :
  Spec.level_axes Examples.wp_level /\
  position dynamic_offset = 90 /\
  0 < 4 /\ 0 < k dynamic_offset /\
  project_dist Examples.wp_level
    (location (spawn_transform dynamic_offset 4
                 (location (transform Examples.wp_level)) Examples.wp_level))
  = Ok (k dynamic_offset * 4) /\
  0 < k dynamic_offset * 4.
Proof.
  assert (Hw : 0 < 4) by lra.
  assert (Hk : 0 < k dynamic_offset) by (simpl; lra).
  pose proof (C3_round_trip_on_level_axes Examples.wp_level dynamic_offset 4
                level_axes_wp_level eq_refl) as H.
  cbv zeta in H. destruct H as [Hd Hs].
  split; [exact level_axes_wp_level|]. split; [reflexivity|].
  split; [exact Hw|]. split; [exact Hk|]. split; [exact Hd|].
  exact (proj1 (Hs Hw) Hk).
Defined.

(** ** Missing alive-frame data *)

(** C8, as the specification states it, fails: on a recording whose alive
    range of the ego is empty the run does not raise, and it writes a
    document whose [frames] and [distance] lists are empty. *)
Lemma C8_counterexample :
  _create_metrics Examples.map_level Examples.empty_log ∅ =
    (Ok tt, <[output_path := [("frames"%string, []); ("distance"%string, [])]]> ∅)
  /\ ~ raises (fst (_create_metrics Examples.map_level Examples.empty_log ∅)).
Proof.
  assert (H : _create_metrics Examples.map_level Examples.empty_log ∅ =
    (Ok tt, <[output_path := [("frames"%string, []); ("distance"%string, [])]]> ∅))
    by reflexivity.
  split; [exact H|]. rewrite H. intros (e & He). discriminate He.
Qed.

(** C8, amended. The extractor has no check of its own for missing
    alive-frame data. When the alive-frame query gives [None] for a bound,
    the run raises the [TypeError] of [range] and writes nothing; when it
    gives an empty range ([end <= start]), the run ends normally and binds
    the output path to a document with empty [frames] and [distance]
    lists. *)
Theorem C8_missing_alive_frames_unchecked
    (get_waypoint : Location -> Waypoint) (metrics_log : MetricsLog)
    (files : gmap string json_dict) (a b : option Z) :
  get_actor_alive_frames metrics_log (get_ego_vehicle_id metrics_log) = (a, b) ->
  (a = None \/ b = None ->
     _create_metrics get_waypoint metrics_log files = (Raise TypeError, files)) /\
  (forall start end_ : Z, a = Some start -> b = Some end_ ->
     (end_ <= start)%Z ->
     _create_metrics get_waypoint metrics_log files =
       (Ok tt, <[output_path := Extractor.document [] []]> files)).
Proof.
  intros Hb. split.
  - intros Hnone. exact (create_metrics_none_bounds _ _ _ _ _ Hb Hnone).
  - intros start end_ -> -> Hle.
    rewrite (create_metrics_int_bounds _ _ _ _ _ Hb).
    unfold collect. rewrite (range_empty _ _ Hle). reflexivity.
Qed.

Lemma C8_witness :
  get_actor_alive_frames Examples.missing_log
    (get_ego_vehicle_id Examples.missing_log) = (None, None) /\
  _create_metrics Examples.map_level Examples.missing_log ∅
    = (Raise TypeError, ∅) /\
  get_actor_alive_frames Examples.empty_log
    (get_ego_vehicle_id Examples.empty_log) = (Some 1%Z, Some 1%Z) /\
  _create_metrics Examples.map_level Examples.empty_log ∅
    = (Ok tt, <[output_path := Extractor.document [] []]> ∅).
Proof.
  split; [reflexivity|]. split.
  - exact (proj1 (C8_missing_alive_frames_unchecked Examples.map_level
                    Examples.missing_log ∅ None None eq_refl)
             (or_introl eq_refl)).
  - split; [reflexivity|].
    exact (proj2 (C8_missing_alive_frames_unchecked Examples.map_level
                    Examples.empty_log ∅ (Some 1%Z) (Some 1%Z) eq_refl)
             1%Z 1%Z eq_refl eq_refl (Z.le_refl 1)).
Defined.

(** ** The constructors of the crossing scenarios *)

Section Constructors.

Variable env : Env.

Lemma init_unbound_town (name : string) (offset : offset_dict)
    (world : obj) (ego_vehicle : Vehicle) (config : obj)
    (randomize debug_mode criteria_enable : bool) :
  globals env !! "town"%string = None ->
  raises (init env name offset world ego_vehicle config
            randomize debug_mode criteria_enable) /\
  (forall reached,
     BasicScenario_init env
       [Str name; Handle "ego_vehicle"; config; world; Bool debug_mode]
       [("criteria_enable"%string, Bool criteria_enable)] = Ok tt ->
     get_location_in_distance env ego_vehicle 40 = Ok reached ->
     init env name offset world ego_vehicle config
       randomize debug_mode criteria_enable = Raise (NameError "town")).
Proof.
  intros Htown.
  assert (Hload : load_global (globals env) "town" = Raise (NameError "town"))
    by (unfold load_global; rewrite Htown; reflexivity).
  unfold init. split.
  - destruct (BasicScenario_init env _ _) as [[]|e]; [|eexists; reflexivity].
    cbn [mbind result_bind].
    destruct (get_location_in_distance env ego_vehicle 40) as [[loc d]|e];
      [|eexists; reflexivity].
    cbn [mbind result_bind]. rewrite Hload. eexists. reflexivity.
  - intros [loc d] Hbase Hwalk. rewrite Hbase. cbn [mbind result_bind].
    rewrite Hwalk. cbn [mbind result_bind]. rewrite Hload. reflexivity.
Qed.

(** Were [town] bound, the scenario would hold the cyclist's model and the
    transform computed by the placement, from the ego's lane width, the
    location reached by the lane walk and the waypoint of that location. *)
Lemma init_actor_parameters (name : string) (offset : offset_dict)
    (world : obj) (ego_vehicle : Vehicle) (config : obj)
    (randomize debug_mode criteria_enable : bool) (s : Scenario) :
  init env name offset world ego_vehicle config
    randomize debug_mode criteria_enable = Ok s ->
  exists reached travelled,
    get_location_in_distance env ego_vehicle 40 = Ok (reached, travelled) /\
    actor_parameters s =
      [("vehicle.diamondback.century"%string,
        spawn_transform offset
          (lane_width (get_waypoint ego_vehicle (get_location ego_vehicle)))
          reached (get_waypoint ego_vehicle reached))].
Proof.
  unfold init. intros H.
  destruct (BasicScenario_init env _ _) as [[]|e]; [|discriminate H].
  cbn [mbind result_bind] in H.
  destruct (get_location_in_distance env ego_vehicle 40) as [[loc d]|e];
    [|discriminate H].
  cbn [mbind result_bind] in H.
  destruct (load_global (globals env) "town") as [town|e]; [|discriminate H].
  cbn [mbind result_bind] in H.
  destruct (BasicScenario_init env _ _) as [[]|e]; [|discriminate H].
  cbn [mbind result_bind] in H. injection H as <-.
  exists loc, d. split; reflexivity.
Qed.

End Constructors.

(** C9. In a module namespace that does not bind [town], no construction of
    [StationaryObjectCrossing] or [DynamicObjectCrossing] returns: whatever
    the arguments and whatever the base class and the lane walk do, the
    constructor raises; and once the first base-class initialization and the
    lane walk have returned, what it raises is the [NameError] of [town],
    met while the arguments of the second base-class initialization are
    evaluated. *)
Theorem C9_construction_never_completes
    (env : Env) (world : obj) (ego_vehicle : Vehicle) (config : obj)
    (randomize debug_mode criteria_enable : bool) :
  globals env !! "town"%string = None ->
  (raises (StationaryObjectCrossing_init env world ego_vehicle config
             randomize debug_mode criteria_enable) /\
   raises (DynamicObjectCrossing_init env world ego_vehicle config
             randomize debug_mode criteria_enable)) /\
  (forall reached,
     get_location_in_distance env ego_vehicle 40 = Ok reached ->
     (BasicScenario_init env
        [Str "Stationaryobjectcrossing"; Handle "ego_vehicle"; config; world;
         Bool debug_mode]
        [("criteria_enable"%string, Bool criteria_enable)] = Ok tt ->
      StationaryObjectCrossing_init env world ego_vehicle config
        randomize debug_mode criteria_enable = Raise (NameError "town")) /\
     (BasicScenario_init env
        [Str "Dynamicobjectcrossing"; Handle "ego_vehicle"; config; world;
         Bool debug_mode]
        [("criteria_enable"%string, Bool criteria_enable)] = Ok tt ->
      DynamicObjectCrossing_init env world ego_vehicle config
        randomize debug_mode criteria_enable = Raise (NameError "town"))).
Proof.
  intros Htown.
  pose proof (init_unbound_town env "Stationaryobjectcrossing"
                stationary_offset world ego_vehicle config
                randomize debug_mode criteria_enable Htown) as [Hs Hs'].
  pose proof (init_unbound_town env "Dynamicobjectcrossing"
                dynamic_offset world ego_vehicle config
                randomize debug_mode criteria_enable Htown) as [Hd Hd'].
  split; [split; assumption|].
  intros reached Hwalk. split; intros Hbase.
  - exact (Hs' reached Hbase Hwalk).
  - exact (Hd' reached Hbase Hwalk).
Qed.

Lemma C9_witness :
  globals Examples.env_ok !! "town"%string = None /\
  StationaryObjectCrossing_init Examples.env_ok (Handle "world")
    Examples.ego_on_level (Handle "config") false false true
    = Raise (NameError "town") /\
  DynamicObjectCrossing_init Examples.env_ok (Handle "world")
    Examples.ego_on_level (Handle "config") false false true
    = Raise (NameError "town").
Proof.
  assert (Htown : globals Examples.env_ok !! "town"%string = None)
    by (vm_compute; reflexivity).
  pose proof (C9_construction_never_completes Examples.env_ok (Handle "world")
                Examples.ego_on_level (Handle "config") false false true
                Htown) as [_ H].
  destruct (H (Vec 40 0 0, 40) eq_refl) as [Hs Hd].
  split; [exact Htown|]. split; [exact (Hs eq_refl)|exact (Hd eq_refl)].
Defined.

(** * Further properties of the metric *)

Section MetricRuns.

Variable get_waypoint : Location -> Waypoint.

(** X1. The part of [_create_metrics] that comes before the file is opened
    (lines 43-88: the recorder queries, [range] and the loop) ends without
    an exception exactly when the alive bounds are both ints and every
    frame [i] of the range has a transform at subscript [i - 1] whose
    nearest waypoint has a non-zero right vector; and an exception raised
    there is the outcome of [_create_metrics], with the files untouched. *)
Theorem loop_before_write_returns_iff (metrics_log : MetricsLog) :
  let hero_id := get_ego_vehicle_id metrics_log in
  let bounds := get_actor_alive_frames metrics_log hero_id in
  let hero_transform_list :=
    get_all_actor_states metrics_log hero_id "transform" bounds.1 bounds.2 in
  let before_write :=
    frames ← range_obj bounds.1 bounds.2;
    for_each (loop_body get_waypoint hero_transform_list) empty_lists frames in
  (returns before_write <->
   exists start end_ : Z,
     bounds = (Some start, Some end_) /\
     forall i, (start <= i < end_)%Z ->
       exists tr,
         getitem hero_transform_list (i - 1) = Ok tr /\
         get_right_vector (get_waypoint (location tr)) <> Vec 0 0 0) /\
  (forall (e : exn) (files : gmap string json_dict),
     before_write = Raise e ->
     _create_metrics get_waypoint metrics_log files = (Raise e, files)).
Proof.
  intros hero_id bounds hero_transform_list before_write.
  split.
  - unfold before_write, hero_transform_list.
    destruct bounds as [[start|] [end_|]]; cbn [fst snd range_obj];
      try (split; [intros (ls & Hls); discriminate Hls
                  |intros (s0 & e0 & Heq & _); discriminate Heq]).
    cbn [mbind result_bind]. fold (collect get_waypoint
      (get_all_actor_states metrics_log hero_id "transform"
         (Some start) (Some end_)) start end_).
    split.
    + intros (ls & Hc). exists start, end_. split; [reflexivity|].
      destruct (collect_Ok _ _ _ _ _ Hc) as (Hfr & _ & _ & Hall).
      intros i Hi.
      assert (Hlk : frames_list ls !! Z.to_nat (i - start) = Some i).
      { rewrite Hfr, range_lookup by lia. f_equal. lia. }
      destruct (Hall _ _ Hlk) as (d & w & Hit & _).
      apply iteration_Ok in Hit. destruct Hit as (tr & Htr & Hr & _).
      exists tr. split; assumption.
    + intros (s0 & e0 & Heq & Hall). injection Heq as <- <-.
      apply collect_returns. exact Hall.
  - intros e files He. unfold _create_metrics.
    unfold before_write, hero_transform_list, bounds, hero_id in He.
    destruct (get_actor_alive_frames metrics_log
                (get_ego_vehicle_id metrics_log)) as [a b].
    cbn [fst snd] in He. rewrite He. reflexivity.
Qed.

(** X2. The run raises the exception of the first frame that fails, an
    [IndexError] when its subscript is outside the transform list, a
    [ZeroDivisionError] when its waypoint has a zero right vector, and then
    leaves the files as they were: the frames processed before it are not
    written. *)
Theorem create_metrics_first_failing_frame
    (metrics_log : MetricsLog) (files : gmap string json_dict)
    (start end_ j : Z) :
  get_actor_alive_frames metrics_log (get_ego_vehicle_id metrics_log)
    = (Some start, Some end_) ->
  (start <= j < end_)%Z ->
  let tl := get_all_actor_states metrics_log (get_ego_vehicle_id metrics_log)
              "transform" (Some start) (Some end_) in
  (forall i, (start <= i < j)%Z ->
     exists tr, getitem tl (i - 1) = Ok tr /\
       get_right_vector (get_waypoint (location tr)) <> Vec 0 0 0) ->
  (getitem tl (j - 1) = Raise IndexError ->
     _create_metrics get_waypoint metrics_log files
       = (Raise IndexError, files)) /\
  (forall tr, getitem tl (j - 1) = Ok tr ->
     get_right_vector (get_waypoint (location tr)) = Vec 0 0 0 ->
     _create_metrics get_waypoint metrics_log files
       = (Raise ZeroDivisionError, files)).
Proof.
  intros Hb Hj tl Hbefore.
  assert (Hret : forall i, (start <= i < j)%Z ->
            returns (Extractor.iteration get_waypoint tl i)).
  { intros i Hi. destruct (Hbefore i Hi) as (tr & Htr & Hr).
    eexists (_, _). apply iteration_Ok. exists tr.
    repeat split; [exact Htr|exact Hr]. }
  assert (Hrun : forall e,
            Extractor.iteration get_waypoint tl j = Raise e ->
            _create_metrics get_waypoint metrics_log files = (Raise e, files)).
  { intros e He. rewrite (create_metrics_int_bounds _ _ _ _ _ Hb).
    fold tl. unfold collect.
    rewrite (for_each_first_raise get_waypoint tl end_ j e (proj2 Hj) He
               (Z.to_nat (j - start)) start empty_lists eq_refl (proj1 Hj) Hret).
    reflexivity. }
  split.
  - intros Hg. apply Hrun. apply iteration_raises_cases. left.
    split; [exact Hg|reflexivity].
  - intros tr Hg Hr. apply Hrun. apply iteration_raises_cases. right.
    exists tr. repeat split; assumption.
Qed.

End MetricRuns.

Lemma X2_witness :
  _create_metrics Examples.map_level Examples.long_log ∅ = (Raise IndexError, ∅).
Proof.
  refine (proj1 (create_metrics_first_failing_frame Examples.map_level
                   Examples.long_log ∅ 1 5 4 eq_refl _ _) eq_refl).
  - lia.
  - intros i Hi.
    assert (Hc : i = 1%Z \/ i = 2%Z \/ i = 3%Z) by lia.
    destruct Hc as [-> | [-> | ->]]; eexists; (split; [reflexivity|]);
      simpl; intros H; injection H as H; lra.
Defined.

(** ** Frame numbers below 1 *)

Section NonPositiveFrames.

Variable get_waypoint : Location -> Waypoint.

Lemma getitem_negative {A} (l : list A) (i : Z) :
  (i < 0)%Z ->
  getitem l i =
    if (i + Z.of_nat (length l) <? 0)%Z then Raise IndexError
    else match nth_error l (Z.to_nat (i + Z.of_nat (length l))) with
         | Some a => Ok a
         | None => Raise IndexError
         end.
Proof.
  intros Hi. unfold getitem.
  destruct (Z.ltb_spec i 0) as [_|]; [|lia].
  destruct (Z.ltb_spec (i + Z.of_nat (length l)) 0) as [|Hge];
    [reflexivity|].
  destruct (Z.leb_spec (Z.of_nat (length l)) (i + Z.of_nat (length l)));
    [lia|reflexivity].
Qed.

(** X3. A frame number [N <= 0] does not fail for being below the first
    frame: its subscript [N - 1] is negative and counts from the end of the
    transform list, so the sample of frame [N] is computed from the
    transform at position [len + N - 1] (frame 0 takes the last recorded
    transform); only below [-len] does the run raise [IndexError]. *)
Theorem nonpositive_frame_reads_from_the_end
    (tl : list Transform) (N : Z) :
  (N <= 0)%Z ->
  let p := (Z.of_nat (length tl) + N - 1)%Z in
  ((p < 0)%Z -> collect get_waypoint tl N (N + 1) = Raise IndexError) /\
  (forall tr, (0 <= p)%Z -> nth_error tl (Z.to_nat p) = Some tr ->
     get_right_vector (get_waypoint (location tr)) <> Vec 0 0 0 ->
     collect get_waypoint tl N (N + 1) =
       Ok (Lists [Spec.signedLateralOffset (get_waypoint (location tr))
                    (location tr)]
                 [lane_width (get_waypoint (location tr)) / 2]
                 [N])).
Proof.
  intros HN p.
  assert (Hrange : range N (N + 1) = [N]).
  { rewrite range_cons by lia. rewrite range_empty by lia. reflexivity. }
  assert (Hget : getitem tl (N - 1) =
            if (p <? 0)%Z then Raise IndexError
            else match nth_error tl (Z.to_nat p) with
                 | Some a => Ok a
                 | None => Raise IndexError
                 end).
  { rewrite getitem_negative by lia.
    replace (N - 1 + Z.of_nat (length tl))%Z with p by (unfold p; lia).
    reflexivity. }
  unfold collect. rewrite Hrange. cbn [for_each]. unfold loop_body.
  split.
  - intros Hp. rewrite Hget.
    destruct (Z.ltb_spec p 0); [reflexivity|lia].
  - intros tr Hp Htr Hr. rewrite Hget.
    destruct (Z.ltb_spec p 0); [lia|]. rewrite Htr.
    cbn [mbind result_bind]. rewrite (project_dist_ok _ _ Hr). reflexivity.
Qed.

End NonPositiveFrames.

Lemma X3_witness :
  collect Examples.map_level Examples.straight_run 0 (0 + 1) =
    Ok (Lists [Spec.signedLateralOffset
                 (Examples.map_level (Vec 2 (1 / 2) 0)) (Vec 2 (1 / 2) 0)]
              [lane_width (Examples.map_level (Vec 2 (1 / 2) 0)) / 2]
              [0%Z]).
Proof.
  refine (proj2 (nonpositive_frame_reads_from_the_end Examples.map_level
                   Examples.straight_run 0 _)
            (Trans (Vec 2 (1 / 2) 0) (Rot 0 0 0)) _ eq_refl _).
  - lia.
  - simpl. lia.
  - simpl. intros H. injection H as H. lra.
Defined.

(** ** Size, sign and invariance of the offset *)

Section OffsetFacts.

Lemma project_dist_Ok_inv (wp : Waypoint) (loc : Location) (d : R) :
  project_dist wp loc = Ok d ->
  Spec.norm2 (get_right_vector wp) <> 0 /\
  d = Spec.signedLateralOffset wp loc.
Proof.
  rewrite project_dist_eq. destruct (Req_dec_T _ 0) as [Hz|Hnz]; intros H.
  - discriminate H.
  - injection H as <-. split; [exact Hnz|reflexivity].
Qed.

Lemma cauchy_schwarz (a b : Vector3D) :
  Rabs (dot3 a b) <= Spec.norm a * Spec.norm b.
Proof.
  unfold Spec.norm.
  rewrite <- sqrt_mult by apply norm2_nonneg.
  rewrite <- sqrt_Rsqr_abs. apply sqrt_le_1_alt.
  destruct a as [a1 a2 a3], b as [b1 b2 b3].
  unfold Rsqr, Spec.norm2, dot3. simpl.
  pose proof (Rle_0_sqr (a1 * b2 - a2 * b1)) as H1.
  pose proof (Rle_0_sqr (a1 * b3 - a3 * b1)) as H2.
  pose proof (Rle_0_sqr (a2 * b3 - a3 * b2)) as H3.
  unfold Rsqr in H1, H2, H3. nra.
Qed.

(** X4. The absolute value of the distance the metric computes never
    exceeds the distance between the location and the waypoint's
    location. *)
Theorem project_dist_bounded_by_distance
    (wp : Waypoint) (loc : Location) (d : R) :
  project_dist wp loc = Ok d ->
  Rabs d <= Spec.norm (sub loc (location (transform wp))).
Proof.
  intros H. apply project_dist_Ok_inv in H. destruct H as [Hn ->].
  assert (Hr : get_right_vector wp <> Vec 0 0 0)
    by (intros Hz; apply Hn, norm2_zero, Hz).
  rewrite (signedLateralOffset_abs _ _ Hr).
  unfold Spec.component_along.
  pose proof (norm_pos _ Hn) as Hpos.
  set (v := sub loc (location (transform wp))).
  pose proof (cauchy_schwarz (get_right_vector wp) v) as Hcs.
  unfold Rdiv. rewrite Rabs_mult, Rabs_inv, (Rabs_pos_eq (Spec.norm _)) by lra.
  apply (Rmult_le_reg_r (Spec.norm (get_right_vector wp))); [exact Hpos|].
  rewrite Rmult_assoc, Rinv_l by lra. lra.
Qed.

(** X5. The distance depends on the right vector only through its line:
    stretching, shrinking or reversing the right vector of a waypoint by a
    non-zero factor changes neither the outcome nor the value. *)
Theorem project_dist_right_vector_scaling
    (wp : Waypoint) (loc : Location) (s : R) :
  s <> 0 ->
  project_dist
    (Wp (transform wp) (lane_width wp) (rmul s (get_right_vector wp))
        (get_forward_vector wp)) loc
  = project_dist wp loc.
Proof.
  intros Hs. rewrite !project_dist_eq. cbn [get_right_vector].
  rewrite norm2_rmul.
  destruct (Req_dec_T (Spec.norm2 (get_right_vector wp)) 0) as [Hz|Hnz].
  - rewrite Hz.
    destruct (Req_dec_T (s * s * 0) 0) as [_|H]; [reflexivity|lra].
  - destruct (Req_dec_T (s * s * _) 0) as [H|Hnz'].
    { exfalso. assert (s * s <> 0) by nra. apply Hnz.
      apply (Rmult_eq_reg_l (s * s)); [lra|assumption]. }
    f_equal. unfold Spec.signedLateralOffset.
    cbn [get_right_vector get_forward_vector transform].
    rewrite !projection_magnitude_abs
      by (try rewrite norm2_rmul; assumption).
    set (v := sub loc (location (transform wp))).
    assert (Habs : Rabs (Spec.component_along (rmul s (get_right_vector wp)) v)
                   = Rabs (Spec.component_along (get_right_vector wp) v)).
    { unfold Spec.component_along. rewrite norm_rmul.
      pose proof (norm_pos _ Hnz) as Hpos.
      assert (Hdot : dot3 (rmul s (get_right_vector wp)) v
                     = s * dot3 (get_right_vector wp) v)
        by (unfold dot3, rmul; simpl; ring).
      rewrite Hdot.
      destruct (Rlt_dec s 0) as [Hneg|Hge].
      - rewrite (Rabs_left s Hneg).
        replace (s * dot3 (get_right_vector wp) v
                 / (- s * Spec.norm (get_right_vector wp)))
          with (- (dot3 (get_right_vector wp) v
                   / Spec.norm (get_right_vector wp)))
          by (field; lra).
        apply Rabs_Ropp.
      - rewrite (Rabs_pos_eq s) by lra. f_equal. field. lra. }
    rewrite Habs. reflexivity.
Qed.

(** X7. Sign of the distance: it is zero exactly when the offset vector is
    perpendicular to the right vector, negative exactly when the
    z-component of [forward × v] is negative and the offset vector is not
    perpendicular to the right vector, positive in the remaining case; a
    location on the forward axis itself (zero cross product) is never
    counted as negative. *)
Theorem project_dist_sign
    (wp : Waypoint) (loc : Location) (d : R) :
  project_dist wp loc = Ok d ->
  let v := sub loc (location (transform wp)) in
  let dot := dot3 (get_right_vector wp) v in
  let cross := Spec.cross_z (get_forward_vector wp) v in
  (d = 0 <-> dot = 0) /\
  (d < 0 <-> cross < 0 /\ dot <> 0) /\
  (0 < d <-> 0 <= cross /\ dot <> 0).
Proof.
  intros H v dot cross. apply project_dist_Ok_inv in H.
  destruct H as [Hn ->].
  pose proof (norm_pos _ Hn) as Hpos.
  unfold Spec.signedLateralOffset. fold v. fold cross.
  rewrite (projection_magnitude_abs _ _ Hn).
  unfold Spec.component_along. fold dot.
  set (c := dot / Spec.norm (get_right_vector wp)).
  assert (Hc0 : c = 0 <-> dot = 0).
  { unfold c. split; intros H0.
    - apply (Rmult_eq_reg_r (/ Spec.norm (get_right_vector wp)));
        [|apply Rinv_neq_0_compat; lra].
      unfold Rdiv in H0. lra.
    - rewrite H0. unfold Rdiv. ring. }
  pose proof (Rabs_pos c) as Hge.
  assert (Habs0 : Rabs c = 0 <-> c = 0).
  { split; intros H0.
    - destruct (Req_dec c 0) as [|Hne]; [assumption|].
      apply Rabs_no_R0 in Hne. contradiction.
    - rewrite H0. apply Rabs_R0. }
  assert (Hpos0 : dot <> 0 -> 0 < Rabs c).
  { intros Hd. destruct (Req_dec (Rabs c) 0) as [H0|H0]; [|lra].
    exfalso. apply Hd, Hc0, Habs0, H0. }
  assert (Hzero : dot = 0 -> Rabs c = 0)
    by (intros Hd; apply Habs0, Hc0, Hd).
  assert (Hdot : dot = 0 \/ dot <> 0) by apply Req_dec.
  destruct (Rlt_dec cross 0) as [Hlt|Hnlt].
  - split; [|split].
    + split; intros H0.
      * apply Hc0, Habs0. lra.
      * apply Hzero in H0. lra.
    + split.
      * intros H0. split; [exact Hlt|]. intros Hd. apply Hzero in Hd. lra.
      * intros [_ Hd]. apply Hpos0 in Hd. lra.
    + split.
      * intros H0. lra.
      * intros [Hc _]. lra.
  - split; [|split].
    + split; intros H0.
      * apply Hc0, Habs0. exact H0.
      * apply Hzero, H0.
    + split.
      * intros H0. lra.
      * intros [Hc _]. contradiction.
    + split.
      * intros H0. split; [lra|]. intros Hd. apply Hzero in Hd. lra.
      * intros [_ Hd]. apply Hpos0, Hd.
Qed.

End OffsetFacts.

Lemma level_project_dist :
  project_dist Examples.wp_level (Vec 0 (1 / 2) 0) = Ok (1 / 2).
Proof.
  rewrite project_dist_ok.
  - f_equal. exact (straight_offset 0).
  - simpl. intros H. injection H as H. lra.
Qed.

Lemma X4_witness :
  project_dist Examples.wp_level (Vec 0 (1 / 2) 0) = Ok (1 / 2) /\
  Rabs (1 / 2) <=
    Spec.norm (sub (Vec 0 (1 / 2) 0) (location (transform Examples.wp_level))).
Proof.
  split; [exact level_project_dist|].
  exact (project_dist_bounded_by_distance Examples.wp_level (Vec 0 (1 / 2) 0)
           (1 / 2) level_project_dist).
Defined.

Lemma X5_witness :
  -2 <> 0 /\
  project_dist
    (Wp (transform Examples.wp_level) (lane_width Examples.wp_level)
        (rmul (-2) (get_right_vector Examples.wp_level))
        (get_forward_vector Examples.wp_level)) (Vec 0 (1 / 2) 0)
  = project_dist Examples.wp_level (Vec 0 (1 / 2) 0).
Proof.
  assert (H : -2 <> 0) by lra.
  split; [exact H|].
  exact (project_dist_right_vector_scaling Examples.wp_level
           (Vec 0 (1 / 2) 0) (-2) H).
Defined.

Lemma X7_witness :
  project_dist Examples.wp_level (Vec 0 (1 / 2) 0) = Ok (1 / 2) /\
  let v := sub (Vec 0 (1 / 2) 0) (location (transform Examples.wp_level)) in
  let dot := dot3 (get_right_vector Examples.wp_level) v in
  let cross := Spec.cross_z (get_forward_vector Examples.wp_level) v in
  (1 / 2 = 0 <-> dot = 0) /\
  (1 / 2 < 0 <-> cross < 0 /\ dot <> 0) /\
  (0 < 1 / 2 <-> 0 <= cross /\ dot <> 0).
Proof.
  split; [exact level_project_dist|].
  exact (project_dist_sign Examples.wp_level (Vec 0 (1 / 2) 0) (1 / 2)
           level_project_dist).
Defined.

(** * Further properties of the spawn placement *)

Section Placement.

Lemma radians_270 : math_radians 270 = 3 * (PI / 2).
Proof. unfold math_radians. field. Qed.

Lemma cos_three_quarters (a : R) : cos (a + 3 * (PI / 2)) = sin a.
Proof. rewrite cos_plus, cos_3PI2, sin_3PI2. ring. Qed.

Lemma sin_three_quarters (a : R) : sin (a + 3 * (PI / 2)) = - cos a.
Proof. rewrite sin_plus, cos_3PI2, sin_3PI2. ring. Qed.

Lemma spawn_then_forward (offset : offset_dict) (w : R)
    (loc : Location) (wp : Waypoint) :
  position offset = 90 -> orientation offset = 270 ->
  let t := spawn_transform offset w loc wp in
  let psi := math_radians (yaw (rotation t)) in
  add (location t) (rmul (k offset * w) (Vec (cos psi) (sin psi) 0))
  = Vec (x loc) (y loc) (z loc + dz offset).
Proof.
  intros Hp Ho. unfold spawn_transform, add, rmul. simpl.
  rewrite Hp, Ho, !radians_plus, radians_90, radians_270.
  rewrite cos_quarter, sin_quarter, cos_three_quarters, sin_three_quarters.
  f_equal; ring.
Qed.

(** X8. The cyclist is spawned facing the reference location: in both
    crossing scenarios, the point [k * lane_width] ahead of the spawned
    pose along its yaw is the location reached by the lane walk, 0.2
    higher. The orientation offset (270) undoes the position offset (90). *)
Theorem spawn_faces_reference_location
    (lane_width : R) (reference : Location) (waypoint : Waypoint) :
  let ahead (offset : offset_dict) :=
    let t := spawn_transform offset lane_width reference waypoint in
    let psi := math_radians (yaw (rotation t)) in
    add (location t)
        (rmul (k offset * lane_width) (Vec (cos psi) (sin psi) 0)) in
  ahead stationary_offset
    = Vec (x reference) (y reference) (z reference + 2 / 10) /\
  ahead dynamic_offset
    = Vec (x reference) (y reference) (z reference + 2 / 10).
Proof.
  intros ahead. split.
  - exact (spawn_then_forward stationary_offset lane_width reference waypoint
             eq_refl eq_refl).
  - exact (spawn_then_forward dynamic_offset lane_width reference waypoint
             eq_refl eq_refl).
Qed.

(** On level axes the placed actor is measured at [k * w]. *)
Lemma level_round_trip_value (wp : Waypoint) (offset : offset_dict) (w : R) :
  Spec.level_axes wp -> position offset = 90 ->
  project_dist wp
    (location (spawn_transform offset w (location (transform wp)) wp))
  = Ok (k offset * w).
Proof.
  intros (Hright & c & Hc & Hfx & Hfy) Hp.
  set (psi := math_radians (yaw (rotation (transform wp)))) in *.
  pose proof (sin_cos_1 psi) as Hunit.
  pose proof (spawn_location_quarter offset w wp Hp) as Hv.
  cbv zeta in Hv. fold psi in Hv.
  assert (Hn2 : Spec.norm2 (get_right_vector wp) = 1).
  { rewrite Hright. unfold Spec.norm2, dot3. simpl. lra. }
  assert (Hnz : get_right_vector wp <> Vec 0 0 0).
  { intros Hz. apply norm2_zero in Hz. lra. }
  rewrite (project_dist_ok _ _ Hnz). f_equal.
  unfold Spec.signedLateralOffset.
  rewrite projection_magnitude_abs by lra.
  unfold Spec.component_along, Spec.norm. rewrite Hn2, sqrt_1, Hv.
  assert (Hdot : dot3 (get_right_vector wp)
                   (Vec (- (k offset * w * sin psi)) (k offset * w * cos psi)
                      (dz offset)) = k offset * w).
  { rewrite Hright. unfold dot3. simpl.
    transitivity (k offset * w * (sin psi * sin psi + cos psi * cos psi));
      [ring|rewrite Hunit; ring]. }
  assert (Hcross : Spec.cross_z (get_forward_vector wp)
                     (Vec (- (k offset * w * sin psi))
                        (k offset * w * cos psi) (dz offset))
                   = c * (k offset * w)).
  { unfold Spec.cross_z. simpl. rewrite Hfx, Hfy.
    transitivity (c * (k offset * w)
                  * (sin psi * sin psi + cos psi * cos psi));
      [ring|rewrite Hunit; ring]. }
  rewrite Hdot, Hcross.
  replace (k offset * w / 1) with (k offset * w) by field.
  destruct (Rlt_dec (c * (k offset * w)) 0) as [Hlt|Hge].
  - rewrite Rabs_left by nra. ring.
  - apply Rabs_pos_eq. nra.
Qed.

(** X9. Where the cyclist is spawned relative to the edge of the lane. The
    placement uses the ego's lane width [w], the metric the lane width of
    the waypoint it measures against. On a waypoint with level axes,
    placing from that waypoint's location, the stationary scenario's
    cyclist is measured at [0.2 * w] and the dynamic scenario's at
    [1.1 * w], both to the right for a positive [w]; so the stationary one
    is inside that lane exactly when [w] is below 2.5 times its width, and
    the dynamic one outside exactly when its width is below 2.2 times [w].
    When the two widths are equal the stationary cyclist stands inside the
    lane and the dynamic one starts outside it. *)
Theorem spawn_offsets_against_lane_half_width (wp : Waypoint) (w : R) :
  Spec.level_axes wp -> 0 < w ->
  let placed (offset : offset_dict) :=
    location (spawn_transform offset w (location (transform wp)) wp) in
  let half_width := lane_width wp / 2 in
  project_dist wp (placed stationary_offset) = Ok (2 / 10 * w) /\
  project_dist wp (placed dynamic_offset) = Ok (11 / 10 * w) /\
  0 < 2 / 10 * w /\ 0 < 11 / 10 * w /\
  (2 / 10 * w < half_width <-> w < 25 / 10 * lane_width wp) /\
  (half_width < 11 / 10 * w <-> lane_width wp < 22 / 10 * w) /\
  (w = lane_width wp -> 2 / 10 * w < half_width < 11 / 10 * w).
Proof.
  intros Hlevel Hw placed half_width.
  split; [exact (level_round_trip_value wp stationary_offset w Hlevel eq_refl)|].
  split; [exact (level_round_trip_value wp dynamic_offset w Hlevel eq_refl)|].
  unfold half_width.
  split; [lra|]. split; [lra|]. split; [split; intros; lra|].
  split; [split; intros; lra|]. intros Heq. lra.
Qed.

End Placement.

Lemma X9_witness :
  Spec.level_axes Examples.wp_level /\ 0 < 12 /\
  project_dist Examples.wp_level
    (location (spawn_transform stationary_offset 12
                 (location (transform Examples.wp_level)) Examples.wp_level))
    = Ok (2 / 10 * 12) /\
  ~ 2 / 10 * 12 < lane_width Examples.wp_level / 2.
Proof.
  assert (Hw : 0 < 12) by lra.
  pose proof (spawn_offsets_against_lane_half_width Examples.wp_level 12
                level_axes_wp_level Hw) as H.
  cbv zeta in H. destruct H as (Hs & _ & _ & _ & Hin & _ & _).
  split; [exact level_axes_wp_level|]. split; [exact Hw|].
  split; [exact Hs|].
  intros Hlt. apply Hin in Hlt. simpl in Hlt. lra.
Defined.

(** * Behaviour trees of the scenarios *)

Lemma getitem_head {A} (a : A) (rest : list A) : getitem (a :: rest) 0 = Ok a.
Proof. rewrite getitem_nonneg by lia. reflexivity. Qed.

Lemma getitem_second {A} (a b : A) (rest : list A) :
  getitem (a :: b :: rest) 1 = Ok b.
Proof. rewrite getitem_nonneg by lia. reflexivity. Qed.

Lemma getitem_short {A} (l : list A) (i : Z) :
  (Z.of_nat (length l) <= i)%Z -> getitem l i = Raise IndexError.
Proof.
  intros H. rewrite getitem_nonneg by lia.
  assert (Hn : nth_error l (Z.to_nat i) = None) by (apply nth_error_None; lia).
  rewrite Hn. reflexivity.
Qed.

Section DynamicBehaviour.

Import PyTrees.

(** X10. [DynamicObjectCrossing._create_behavior] needs one other actor:
    with none it raises [IndexError] before any composite is created; with
    at least one it returns, and only the first other actor matters, the
    rest of the list is never read. *)
Theorem dynamic_behavior_other_actors
    (ego_vehicle : Vehicle) (st : store Vehicle) :
  ObjectCrashBehavior._create_behavior ego_vehicle [] st
    = (Raise IndexError, st) /\
  (forall a rest,
     returns (fst (ObjectCrashBehavior._create_behavior ego_vehicle
                     (a :: rest) []))) /\
  (forall a rest rest',
     ObjectCrashBehavior._create_behavior ego_vehicle (a :: rest) []
     = ObjectCrashBehavior._create_behavior ego_vehicle (a :: rest') []).
Proof.
  split; [reflexivity|]. split.
  - intros a rest. unfold ObjectCrashBehavior._create_behavior.
    rewrite !getitem_head. eexists. reflexivity.
  - intros a rest rest'. unfold ObjectCrashBehavior._create_behavior.
    rewrite !getitem_head. reflexivity.
Qed.

(** X11. The tree [DynamicObjectCrossing._create_behavior] returns: a
    parallel root over one sequence; the sequence engages the hand brake of
    the cyclist, waits for the time-to-arrival condition against the ego,
    releases the hand brake, keeps velocity until 0.3 * 2.25 = 0.675 lane
    widths are driven, accelerates until 2.25 lane widths are driven, stops
    and waits 5; the lane width is that of the ego's lane. The children
    appended to the two inner parallels after these were put in the
    sequence are in the returned tree. *)
Theorem dynamic_behavior_tree
    (ego_vehicle a : Vehicle) (rest : list Vehicle) :
  let w := lane_width (get_waypoint ego_vehicle (get_location ego_vehicle)) in
  exists root st,
    ObjectCrashBehavior._create_behavior ego_vehicle (a :: rest) []
      = (Ok root, st) /\
    view 3 st root =
      Some (Node (Parallel (Some SUCCESS_ON_ONE))
        [Node Sequence
           [Leaf (HandBrakeVehicle a true);
            Leaf (InTimeToArrivalToVehicle a ego_vehicle 12);
            Leaf (HandBrakeVehicle a false);
            Node (Parallel (Some SUCCESS_ON_ONE))
              [Leaf (KeepVelocity a 10);
               Leaf (DriveDistance a (675 / 1000 * w))];
            Node (Parallel (Some SUCCESS_ON_ONE))
              [Leaf (AccelerateToVelocity a 1 10);
               Leaf (DriveDistance a (225 / 100 * w))];
            Leaf (StopVehicle a 1);
            Leaf (TimeOut 5)]]).
Proof.
  intros w. unfold ObjectCrashBehavior._create_behavior.
  rewrite !getitem_head. fold w.
  eexists _, _. split; [reflexivity|]. cbn.
  replace (3 / 10 * (w + 125 / 100 * w)) with (675 / 1000 * w) by field.
  replace (w + 125 / 100 * w) with (225 / 100 * w) by field.
  reflexivity.
Qed.

End DynamicBehaviour.

Section ManeuverBehaviour.

Import PyTrees ManeuverOppositeDirection.

Variable Actor : Type.

Lemma maneuver_tree_of_two
    (self : attributes) (ego_vehicle a b : Actor) (rest : list Actor) :
  exists root st',
    _create_behavior Actor self ego_vehicle (a :: b :: rest) []
      = (Ok root, st') /\
    view 3 st' root =
      Some (Node (Parallel (Some SUCCESS_ON_ONE))
        [Leaf (DriveDistance ego_vehicle (_ego_vehicle_drive_distance self));
         Node Sequence
           [Leaf (InTriggerDistanceToVehicle a ego_vehicle
                    (_start_distance self));
            Node (Parallel None)
              [Leaf (WaypointFollower a (_first_vehicle_speed self));
               Leaf (WaypointFollower b (_second_vehicle_speed self))]]]).
Proof.
  unfold _create_behavior. rewrite !getitem_head, getitem_second.
  eexists _, _. split; reflexivity.
Qed.

(** X12. [ManeuverOppositeDirection._create_behavior] needs two other
    actors: with fewer it raises [IndexError] and leaves the store of
    composites as it was; with at least two it returns the tree of a
    parallel root over the ego's drive distance and a sequence of the
    trigger distance between the first actor and the ego, then a parallel
    (default policy) of the two waypoint followers, the first actor at the
    first speed and the second actor at the second speed. *)
Theorem maneuver_behavior_other_actors
    (self : attributes) (ego_vehicle : Actor) (other_actors : list Actor)
    (st : store Actor) :
  ((length other_actors < 2)%nat ->
     _create_behavior Actor self ego_vehicle other_actors st
       = (Raise IndexError, st)) /\
  (forall a b rest, other_actors = a :: b :: rest ->
     exists root st',
       _create_behavior Actor self ego_vehicle other_actors [] = (Ok root, st') /\
       view 3 st' root =
         Some (Node (Parallel (Some SUCCESS_ON_ONE))
           [Leaf (DriveDistance ego_vehicle (_ego_vehicle_drive_distance self));
            Node Sequence
              [Leaf (InTriggerDistanceToVehicle a ego_vehicle
                       (_start_distance self));
               Node (Parallel None)
                 [Leaf (WaypointFollower a (_first_vehicle_speed self));
                  Leaf (WaypointFollower b (_second_vehicle_speed self))]]])).
Proof.
  split.
  - intros Hlen. unfold _create_behavior.
    destruct other_actors as [|a [|b rest]]; [reflexivity| |simpl in Hlen; lia].
    rewrite !getitem_head. rewrite (getitem_short [a] 1) by (simpl; lia).
    reflexivity.
  - intros a b rest ->. apply maneuver_tree_of_two.
Qed.

End ManeuverBehaviour.

Lemma X12_witness :
  (length [7%nat] < 2)%nat /\
  ManeuverOppositeDirection._create_behavior nat
    (ManeuverOppositeDirection.init_attributes Examples.wp_level) 0%nat [7%nat] []
  = (Raise IndexError, []).
Proof.
  assert (H : (length [7%nat] < 2)%nat) by (simpl; lia).
  split; [exact H|].
  exact (proj1 (maneuver_behavior_other_actors nat
                  (ManeuverOppositeDirection.init_attributes Examples.wp_level)
                  0%nat [7%nat] []) H).
Defined.

(** * Actors of the opposite-direction scenario *)

Section ManeuverActors.

Import PyTrees ManeuverOppositeDirection.

Variables Actor Pool : Type.
Variable get_waypoint_in_distance : Waypoint -> R -> result (Waypoint * R).
Variable get_left_lane : Waypoint -> option Waypoint.
Variable request_new_actor : string -> Transform -> prog Pool Actor.

Let initialize := initialize_actors Actor Pool get_waypoint_in_distance
                    get_left_lane request_new_actor.

(** X13. When the waypoint of the second vehicle has no left lane,
    [initialize_actors] raises [AttributeError] only after the first
    vehicle has been requested: the pool is left as the first request made
    it, and the second vehicle is never requested. *)
Theorem initialize_actors_without_left_lane
    (self : attributes) (pool pool1 : Pool)
    (wp1 wp2 : Waypoint) (d1 d2 : R) (first_vehicle : Actor) :
  get_waypoint_in_distance (_reference_waypoint self)
    (_first_vehicle_location self) = Ok (wp1, d1) ->
  get_waypoint_in_distance (_reference_waypoint self)
    (_second_vehicle_location self) = Ok (wp2, d2) ->
  get_left_lane wp2 = None ->
  request_new_actor "vehicle.tesla.model3" (transform wp1) pool
    = (Ok first_vehicle, pool1) ->
  initialize self pool = (Raise AttributeError, pool1).
Proof.
  intros H1 H2 Hleft Hreq. unfold initialize, initialize_actors.
  unfold mbind, prog_bind, lift. rewrite H1, H2, Hleft, Hreq. reflexivity.
Qed.

(** What a normal return of [initialize_actors] went through. *)
Lemma initialize_actors_Ok (self : attributes) (pool pool' : Pool)
    (actors : list Actor) :
  initialize self pool = (Ok actors, pool') ->
  exists wp1 d1 wp2 d2 left first_vehicle second_vehicle pool1,
    get_waypoint_in_distance (_reference_waypoint self)
      (_first_vehicle_location self) = Ok (wp1, d1) /\
    get_waypoint_in_distance (_reference_waypoint self)
      (_second_vehicle_location self) = Ok (wp2, d2) /\
    get_left_lane wp2 = Some left /\
    request_new_actor "vehicle.tesla.model3" (transform wp1) pool
      = (Ok first_vehicle, pool1) /\
    request_new_actor "vehicle.audi.tt" (transform left) pool1
      = (Ok second_vehicle, pool') /\
    actors = [first_vehicle; second_vehicle].
Proof.
  unfold initialize, initialize_actors, mbind, prog_bind, lift, mret, prog_ret.
  destruct (get_waypoint_in_distance _ (_first_vehicle_location self))
    as [[wp1 d1]|e]; [|intros H; discriminate H].
  destruct (get_waypoint_in_distance _ (_second_vehicle_location self))
    as [[wp2 d2]|e]; [|intros H; discriminate H].
  destruct (request_new_actor "vehicle.tesla.model3" (transform wp1) pool)
    as [[v1|e] pool1] eqn:Hr1; [|intros H; discriminate H].
  destruct (get_left_lane wp2) as [left|] eqn:Hleft;
    [|intros H; discriminate H].
  cbn [getattr].
  destruct (request_new_actor "vehicle.audi.tt" (transform left) pool1)
    as [[v2|e] pool2] eqn:Hr2; [|intros H; discriminate H].
  intros H. injection H as <- <-.
  exists wp1, d1, wp2, d2, left, v1, v2, pool1. repeat split; assumption.
Qed.

(** X14. A normal return of [initialize_actors] hands out exactly two
    actors, the first requested at the waypoint 50 ahead of the reference
    waypoint and the second, requested after it, at the left lane of the
    waypoint 90 ahead; so [_create_behavior] on them never raises, and its
    tree drives the ego 140, triggers at 40 between the first vehicle and
    the ego, and follows waypoints with the first vehicle at 55 and the
    second at 60. *)
Theorem maneuver_actors_then_behavior
    (reference_waypoint : Waypoint) (ego_vehicle : Actor)
    (pool pool' : Pool) (actors : list Actor) :
  initialize (init_attributes reference_waypoint) pool = (Ok actors, pool') ->
  exists wp1 d1 wp2 d2 left first_vehicle second_vehicle pool1,
    get_waypoint_in_distance reference_waypoint 50 = Ok (wp1, d1) /\
    get_waypoint_in_distance reference_waypoint (50 + 40) = Ok (wp2, d2) /\
    get_left_lane wp2 = Some left /\
    request_new_actor "vehicle.tesla.model3" (transform wp1) pool
      = (Ok first_vehicle, pool1) /\
    request_new_actor "vehicle.audi.tt" (transform left) pool1
      = (Ok second_vehicle, pool') /\
    actors = [first_vehicle; second_vehicle] /\
    exists root st,
      _create_behavior Actor (init_attributes reference_waypoint)
        ego_vehicle actors [] = (Ok root, st) /\
      view 3 st root =
        Some (Node (Parallel (Some SUCCESS_ON_ONE))
          [Leaf (DriveDistance ego_vehicle (50 + 40 + 50));
           Node Sequence
             [Leaf (InTriggerDistanceToVehicle first_vehicle ego_vehicle
                      (50 * (8 / 10)));
              Node (Parallel None)
                [Leaf (WaypointFollower first_vehicle 55);
                 Leaf (WaypointFollower second_vehicle 60)]]]).
Proof.
  intros H. apply initialize_actors_Ok in H.
  destruct H as (wp1 & d1 & wp2 & d2 & left & v1 & v2 & pool1
                 & H1 & H2 & Hl & Hr1 & Hr2 & ->).
  exists wp1, d1, wp2, d2, left, v1, v2, pool1.
  repeat (split; [assumption|]). split; [reflexivity|].
  exact (maneuver_tree_of_two Actor (init_attributes reference_waypoint)
           ego_vehicle v1 v2 []).
Qed.

End ManeuverActors.

Lemma X13_witness :
  ManeuverOppositeDirection.initialize_actors nat ScenarioExamples.pool
    ScenarioExamples.walk ScenarioExamples.no_left_lane
    ScenarioExamples.request
    (ManeuverOppositeDirection.init_attributes Examples.wp_level) []
  = (Raise AttributeError,
     [("vehicle.tesla.model3"%string,
       Trans (add (Vec 0 0 0) (Vec 50 0 0)) (Rot 0 0 0))]).
Proof.
  exact (initialize_actors_without_left_lane nat ScenarioExamples.pool
           ScenarioExamples.walk ScenarioExamples.no_left_lane
           ScenarioExamples.request
           (ManeuverOppositeDirection.init_attributes Examples.wp_level)
           [] _ _ _ _ _ 0%nat eq_refl eq_refl eq_refl eq_refl).
Defined.

Lemma X14_witness :
  let initialize :=
    ManeuverOppositeDirection.initialize_actors nat ScenarioExamples.pool
      ScenarioExamples.walk ScenarioExamples.oncoming_lane
      ScenarioExamples.request in
  initialize (ManeuverOppositeDirection.init_attributes Examples.wp_level) []
    = (Ok [0%nat; 1%nat],
       [("vehicle.tesla.model3"%string,
         Trans (add (Vec 0 0 0) (Vec 50 0 0)) (Rot 0 0 0));
        ("vehicle.audi.tt"%string,
         Trans (add (add (Vec 0 0 0) (Vec (50 + 40) 0 0)) (Vec 0 (- 4) 0))
               (Rot 0 180 0))]) /\
  exists root st,
    ManeuverOppositeDirection._create_behavior nat
      (ManeuverOppositeDirection.init_attributes Examples.wp_level)
      7%nat [0%nat; 1%nat] [] = (Ok root, st) /\
    PyTrees.view 3 st root =
      Some (PyTrees.Node (PyTrees.Parallel (Some PyTrees.SUCCESS_ON_ONE))
        [PyTrees.Leaf (PyTrees.DriveDistance 7%nat (50 + 40 + 50));
         PyTrees.Node PyTrees.Sequence
           [PyTrees.Leaf (PyTrees.InTriggerDistanceToVehicle 0%nat 7%nat
                            (50 * (8 / 10)));
            PyTrees.Node (PyTrees.Parallel None)
              [PyTrees.Leaf (PyTrees.WaypointFollower 0%nat 55);
               PyTrees.Leaf (PyTrees.WaypointFollower 1%nat 60)]]]).
Proof.
  intros initialize.
  assert (Hrun : initialize
            (ManeuverOppositeDirection.init_attributes Examples.wp_level) []
          = (Ok [0%nat; 1%nat],
             [("vehicle.tesla.model3"%string,
               Trans (add (Vec 0 0 0) (Vec 50 0 0)) (Rot 0 0 0));
              ("vehicle.audi.tt"%string,
               Trans (add (add (Vec 0 0 0) (Vec (50 + 40) 0 0)) (Vec 0 (- 4) 0))
                     (Rot 0 180 0))])) by reflexivity.
  split; [exact Hrun|].
  destruct (maneuver_actors_then_behavior nat ScenarioExamples.pool
              ScenarioExamples.walk ScenarioExamples.oncoming_lane
              ScenarioExamples.request Examples.wp_level 7%nat [] _ _ Hrun)
    as (wp1 & d1 & wp2 & d2 & left & v1 & v2 & pool1
        & _ & _ & _ & _ & _ & Hact & Htree).
  injection Hact as <- <-. exact Htree.
Defined.
